(** * Common Voice Offline: schema, dashboard reads and bot state machine

    A shallow embedding of [supabase/schema.sql] (latest variant: tables
    [users], [sentences], [recordings]; views [stats_by_language],
    [user_stats], [user_sentences]; anon row-level-security policies), of
    the dashboard's Supabase reads ([dashboard/src/utils/supabase.ts],
    [dashboard/src/pages/Home.tsx]) and, modelled from the spec, of the
    bot's allocator, capture and upload reconciler, whose Python code is
    not part of the sources at hand. *)

From Stdlib Require Import Ascii String Bool Arith Lia ZArith.
From Stdlib Require Import List.
From Stdlib Require Import Sorting.Permutation Sorting.Sorted.
Import ListNotations.
Open Scope string_scope.
Open Scope list_scope.
Open Scope nat_scope.

(** ** Schema: the tables of the latest [schema.sql] *)
Module Schema.

(** [users]: [telegram_id BIGINT PRIMARY KEY], [cv_token TEXT] (NULL means
    logged out), ... Timestamps are abstracted to [nat]. *)
Record user := mkUser {
  telegram_id : Z;
  u_cv_user_id : string;
  email : string;
  username : string;
  cv_token : option string;
  current_language : option string;
  bot_language : string;
  age : option string;
  gender : option string;
  u_created_at : nat;
  u_updated_at : nat
}.

(** [sentences]: every sentence ever assigned; [status] is one of
    ['active'], ['uploaded'], ['skipped']. *)
Record sentence := mkSentence {
  s_id : nat;
  s_cv_user_id : string;
  s_language : string;
  sentence_number : nat;
  text_id : string;
  s_text : string;
  s_hash : string;
  s_status : string;
  s_created_at : nat
}.

(** [recordings]: [UNIQUE (sentence_id)]; [status] is one of ['pending'],
    ['uploaded'], ['failed']. *)
Record recording := mkRecording {
  r_id : nat;
  sentence_id : nat;
  file_id : string;
  r_status : string;
  error_message : option string;
  r_created_at : nat;
  uploaded_at : option nat
}.

Record db := mkDb {
  users : list user;
  sentences : list sentence;
  recordings : list recording
}.

Definition empty_db : db := mkDb [] [] [].

End Schema.
Import Schema.

(** ** Views of the latest [schema.sql] *)
Module Views.

Record language_stats := mkLanguageStats {
  ls_language : string;
  contributors : nat;
  recordings_uploaded : nat;
  recordings_pending : nat
}.

(** [COUNT(DISTINCT cv_user_id)]: the distinct values of a column. *)
Definition count_distinct (l : list string) : nat :=
  length (nodup string_dec l).

Definition rows_in_language (lang : string) (ss : list sentence) : list sentence :=
  filter (fun s => String.eqb s.(s_language) lang) ss.

Definition with_status (st : string) (ss : list sentence) : list sentence :=
  filter (fun s => String.eqb s.(s_status) st) ss.

(** One output row of the [GROUP BY language] of [stats_by_language]. *)
Definition stats_row (ss : list sentence) (lang : string) : language_stats :=
  let rows := rows_in_language lang ss in
  {| ls_language := lang;
     contributors := count_distinct (map s_cv_user_id rows);
     recordings_uploaded := length (with_status "uploaded" rows);
     recordings_pending := length (with_status "active" rows) |}.

(** [CREATE VIEW stats_by_language AS SELECT language,
      COUNT(DISTINCT cv_user_id) as contributors,
      COUNT( * ) FILTER (WHERE status = 'uploaded') as recordings_uploaded,
      COUNT( * ) FILTER (WHERE status = 'active') as recordings_pending
    FROM sentences GROUP BY language]. *)
Definition stats_by_language (d : db) : list language_stats :=
  map (stats_row d.(sentences)) (nodup string_dec (map s_language d.(sentences))).

Definition stats_for (d : db) (lang : string) : option language_stats :=
  find (fun r => String.eqb r.(ls_language) lang) (stats_by_language d).

(** The spec's reading of [recordings_uploaded]: recordings with status
    ['uploaded'] whose sentence is in the given language. *)
Definition uploaded_recordings_in (d : db) (lang : string) : nat :=
  length (filter (fun r =>
     String.eqb r.(r_status) "uploaded" &&
     existsb (fun s => Nat.eqb s.(s_id) r.(sentence_id) && String.eqb s.(s_language) lang)
             d.(sentences)) d.(recordings)).

Record user_stats_row := mkUserStatsRow {
  us_cv_user_id : string;
  total_contributions : nat;
  languages_contributed : nat
}.

(** [CREATE VIEW user_stats AS SELECT cv_user_id,
      COUNT( * ) FILTER (WHERE status = 'uploaded') as total_contributions,
      COUNT(DISTINCT language) FILTER (WHERE status = 'uploaded') as languages_contributed
    FROM sentences GROUP BY cv_user_id]. *)
Definition user_stats (d : db) : list user_stats_row :=
  map (fun u =>
         let rows := filter (fun s => String.eqb s.(s_cv_user_id) u) d.(sentences) in
         {| us_cv_user_id := u;
            total_contributions := length (with_status "uploaded" rows);
            languages_contributed :=
              count_distinct (map s_language (with_status "uploaded" rows)) |})
      (nodup string_dec (map s_cv_user_id d.(sentences))).

Record user_sentence := mkUserSentence {
  uss_cv_user_id : string;
  uss_language : string;
  uss_text : string;
  uss_uploaded_at : nat
}.

Definition user_sentence_of (s : sentence) : user_sentence :=
  {| uss_cv_user_id := s.(s_cv_user_id); uss_language := s.(s_language);
     uss_text := s.(s_text); uss_uploaded_at := s.(s_created_at) |}.

(** [CREATE VIEW user_sentences AS SELECT cv_user_id, language, text,
      created_at as uploaded_at FROM sentences WHERE status = 'uploaded']. *)
Definition user_sentences (d : db) : list user_sentence :=
  map user_sentence_of (with_status "uploaded" d.(sentences)).

End Views.

(** ** What the [anon] role can read (latest [schema.sql])

    RLS is enabled on every table; the anon policies are
    [CREATE POLICY "Allow anon to read users" ON users FOR SELECT TO anon USING (true)]
    and the same for [sentences] and [recordings]; [user_preferences] has
    none, so RLS hides all its rows. The three views are granted
    [SELECT ... TO anon]. A query selects a list of columns from one
    relation; rows are rendered as column/value lists. *)
Module Anon.

Inductive value := VInt (z : Z) | VNat (n : nat) | VText (s : string) | VNull.

Definition row := list (string * value).

Inductive relation := RUsers | RSentences | RRecordings | RUserPreferences
                    | VStatsByLanguage | VUserStats | VUserSentences.

Definition opt_text (o : option string) : value :=
  match o with Some s => VText s | None => VNull end.

Definition opt_nat (o : option nat) : value :=
  match o with Some n => VNat n | None => VNull end.

Definition user_row (u : user) : row :=
  [("telegram_id", VInt u.(telegram_id)); ("cv_user_id", VText u.(u_cv_user_id));
   ("email", VText u.(email)); ("username", VText u.(username));
   ("cv_token", opt_text u.(cv_token)); ("current_language", opt_text u.(current_language));
   ("bot_language", VText u.(bot_language)); ("age", opt_text u.(age));
   ("gender", opt_text u.(gender)); ("created_at", VNat u.(u_created_at));
   ("updated_at", VNat u.(u_updated_at))].

Definition sentence_row (s : sentence) : row :=
  [("id", VNat s.(s_id)); ("cv_user_id", VText s.(s_cv_user_id));
   ("language", VText s.(s_language)); ("sentence_number", VNat s.(sentence_number));
   ("text_id", VText s.(text_id)); ("text", VText s.(s_text)); ("hash", VText s.(s_hash));
   ("status", VText s.(s_status)); ("created_at", VNat s.(s_created_at))].

Definition recording_row (r : recording) : row :=
  [("id", VNat r.(r_id)); ("sentence_id", VNat r.(sentence_id));
   ("file_id", VText r.(file_id)); ("status", VText r.(r_status));
   ("error_message", opt_text r.(error_message)); ("created_at", VNat r.(r_created_at));
   ("uploaded_at", opt_nat r.(uploaded_at))].

Definition stats_row_out (l : Views.language_stats) : row :=
  [("language", VText l.(Views.ls_language)); ("contributors", VNat l.(Views.contributors));
   ("recordings_uploaded", VNat l.(Views.recordings_uploaded));
   ("recordings_pending", VNat l.(Views.recordings_pending))].

Definition user_stats_out (u : Views.user_stats_row) : row :=
  [("cv_user_id", VText u.(Views.us_cv_user_id));
   ("total_contributions", VNat u.(Views.total_contributions));
   ("languages_contributed", VNat u.(Views.languages_contributed))].

Definition user_sentence_out (u : Views.user_sentence) : row :=
  [("cv_user_id", VText u.(Views.uss_cv_user_id)); ("language", VText u.(Views.uss_language));
   ("text", VText u.(Views.uss_text)); ("uploaded_at", VNat u.(Views.uss_uploaded_at))].

(** Does an anon [SELECT] policy exist on the table? *)
Definition anon_policy (r : relation) : bool :=
  match r with
  | RUsers | RSentences | RRecordings => true
  | RUserPreferences => false
  | VStatsByLanguage | VUserStats | VUserSentences => true
  end.

(** All rows of a relation as the anon role sees them. *)
Definition anon_rows (d : db) (r : relation) : list row :=
  if anon_policy r then
    match r with
    | RUsers => map user_row d.(users)
    | RSentences => map sentence_row d.(sentences)
    | RRecordings => map recording_row d.(recordings)
    | RUserPreferences => []
    | VStatsByLanguage => map stats_row_out (Views.stats_by_language d)
    | VUserStats => map user_stats_out (Views.user_stats d)
    | VUserSentences => map user_sentence_out (Views.user_sentences d)
    end
  else [].

Definition project (cols : list string) (x : row) : row :=
  filter (fun cv => existsb (String.eqb (fst cv)) cols) x.

(** [supabase.from(r).select(cols)] issued with the anon key. *)
Definition anon_select (d : db) (r : relation) (cols : list string) : list row :=
  map (project cols) (anon_rows d r).

Definition is_view (r : relation) : bool :=
  match r with VStatsByLanguage | VUserStats | VUserSentences => true | _ => false end.

(** Credential material and messaging identity blanked out. *)
Definition scrub (u : user) : user :=
  {| telegram_id := 0%Z; u_cv_user_id := u.(u_cv_user_id); email := "";
     username := u.(username); cv_token := None; current_language := u.(current_language);
     bot_language := u.(bot_language); age := u.(age); gender := u.(gender);
     u_created_at := u.(u_created_at); u_updated_at := u.(u_updated_at) |}.

(** Two states that differ at most in [cv_token], [email] and [telegram_id]. *)
Definition differ_only_in_secrets (d1 d2 : db) : Prop :=
  map scrub d1.(users) = map scrub d2.(users) /\
  d1.(sentences) = d2.(sentences) /\ d1.(recordings) = d2.(recordings).

Definition alice (tok : string) : user :=
  {| telegram_id := 1001%Z; u_cv_user_id := "cv-alice"; email := "alice@example.org";
     username := "alice"; cv_token := Some tok; current_language := Some "es";
     bot_language := "es"; age := None; gender := None; u_created_at := 1; u_updated_at := 1 |}.

Definition db_token (tok : string) : db := mkDb [alice tok] [] [].

End Anon.

(** ** The bot's state machine, modelled from the spec

    The Python bot (allocator, capture, reconciler) is not among the
    sources; the definitions below follow spec sections 3, 4.1, 4.2 and
    4.3 and act on the tables of [schema.sql]. *)
Module Bot.

(** Modelled from the spec: the configured maximum batch size
    ([sentences.max: 100] in [config.yaml], spec 4.1 "bounded by a
    configured maximum"). *)
Definition max_sentences : nat := 100.

(** A sentence returned by the corpus service's [fetchSentences]. *)
Record candidate := mkCandidate { cand_id : string; cand_text : string; cand_hash : string }.

Inductive bot_error := NoSentencesAvailable | BatchTooLarge | UnknownPosition.

Inductive result (A : Type) := Err (e : bot_error) | Ok (a : A).
Arguments Err {A} e.
Arguments Ok {A} a.

Definition is_active (s : sentence) : bool := String.eqb s.(s_status) "active".

Definition set_status (st : string) (s : sentence) : sentence :=
  {| s_id := s.(s_id); s_cv_user_id := s.(s_cv_user_id); s_language := s.(s_language);
     sentence_number := s.(sentence_number); text_id := s.(text_id); s_text := s.(s_text);
     s_hash := s.(s_hash); s_status := st; s_created_at := s.(s_created_at) |}.

Definition with_sentences (d : db) (ss : list sentence) : db :=
  {| users := d.(users); sentences := ss; recordings := d.(recordings) |}.

Definition with_recordings (d : db) (rs : list recording) : db :=
  {| users := d.(users); sentences := d.(sentences); recordings := rs |}.

(** The contributor's historical WorkItems in one language, any status. *)
Definition history (c lang : string) (ss : list sentence) : list sentence :=
  filter (fun s => String.eqb s.(s_cv_user_id) c && String.eqb s.(s_language) lang) ss.

Definition text_ids (c lang : string) (d : db) : list string :=
  map text_id (history c lang d.(sentences)).

Definition seen (ids : list string) (x : string) : bool := existsb (String.eqb x) ids.

Definition next_sentence_id (ss : list sentence) : nat :=
  S (fold_right (fun s m => Nat.max s.(s_id) m) 0 ss).

(** New WorkItems with position numbers [pos], [pos+1], ... in the order received. *)
Fixpoint make_batch (c lang : string) (now next pos : nat) (cs : list candidate)
  : list sentence :=
  match cs with
  | [] => []
  | x :: rest =>
      mkSentence next c lang pos x.(cand_id) x.(cand_text) x.(cand_hash) "active" now
      :: make_batch c lang now (S next) (S pos) rest
  end.

(** Modelled from the spec (4.1, [/clear]): the contributor's unresolved
    active items are discarded; they stay in the table (queryable, and
    part of the history the allocator filters) with status ['skipped']. *)
Definition clear (c : string) (d : db) : db :=
  with_sentences d
    (map (fun s => if String.eqb s.(s_cv_user_id) c && is_active s
                   then set_status "skipped" s else s) d.(sentences)).

Definition unseen_candidates (c lang : string) (d : db) (cands : list candidate)
  : list candidate :=
  filter (fun x => negb (seen (text_ids c lang d) x.(cand_id))) cands.

(** Modelled from the spec (4.1, [/setup]): the Sentence Allocator. A count
    over the maximum is a caller error; candidates already in the history
    are filtered out, then up to [n] are taken; none left is
    [NoSentencesAvailable]; otherwise the in-progress batch is cleared and
    the new one appended with positions 1..k. *)
Definition setup (now : nat) (c lang : string) (n : nat) (cands : list candidate) (d : db)
  : result db :=
  if max_sentences <? n then Err BatchTooLarge else
  match firstn n (unseen_candidates c lang d cands) with
  | [] => Err NoSentencesAvailable
  | picked =>
      let d0 := clear c d in
      Ok (with_sentences d0
            (d0.(sentences) ++ make_batch c lang now (next_sentence_id d0.(sentences)) 1 picked))
  end.

(** Modelled from the spec ([/skip 1,3,5-10]): active items at the given
    positions become ['skipped']. *)
Definition skip (c : string) (ps : list nat) (d : db) : db :=
  with_sentences d
    (map (fun s => if String.eqb s.(s_cv_user_id) c && is_active s
                      && existsb (Nat.eqb s.(sentence_number)) ps
                   then set_status "skipped" s else s) d.(sentences)).

Definition find_active (c : string) (pos : nat) (ss : list sentence) : option sentence :=
  find (fun s => String.eqb s.(s_cv_user_id) c && is_active s
                 && Nat.eqb s.(sentence_number) pos) ss.

Definition recording_for (sid : nat) (rs : list recording) : option recording :=
  find (fun r => Nat.eqb r.(sentence_id) sid) rs.

Definition next_recording_id (rs : list recording) : nat :=
  S (fold_right (fun r m => Nat.max r.(r_id) m) 0 rs).

(** Upsert on [recordings] with conflict target [sentence_id] (the
    [UNIQUE (sentence_id)] constraint): the conflicting row is updated,
    otherwise the fresh row is inserted. *)
Definition upsert_recording (fresh : recording) (on_conflict : recording -> recording)
  (rs : list recording) : list recording :=
  match recording_for fresh.(sentence_id) rs with
  | Some _ => map (fun r => if Nat.eqb r.(sentence_id) fresh.(sentence_id)
                            then on_conflict r else r) rs
  | None => rs ++ [fresh]
  end.

Definition recapture (f : string) (r : recording) : recording :=
  {| r_id := r.(r_id); sentence_id := r.(sentence_id); file_id := f; r_status := "pending";
     error_message := None; r_created_at := r.(r_created_at); uploaded_at := r.(uploaded_at) |}.

(** Modelled from the spec (4.2): Recording Capture. The best-effort
    backup write does not touch the tables and is left out. *)
Definition capture (now : nat) (c : string) (pos : nat) (f : string) (d : db) : result db :=
  match find_active c pos d.(sentences) with
  | None => Err UnknownPosition
  | Some s =>
      Ok (with_recordings d
            (upsert_recording
               (mkRecording (next_recording_id d.(recordings)) s.(s_id) f "pending" None now None)
               (recapture f) d.(recordings)))
  end.

(** Outcome of [submitRecording] at the corpus service. *)
Inductive outcome := Success | Rejected (reason : string) | Transient.

Definition is_transient (o : outcome) : bool :=
  match o with Transient => true | _ => false end.

Definition set_uploaded (now : nat) (r : recording) : recording :=
  {| r_id := r.(r_id); sentence_id := r.(sentence_id); file_id := r.(file_id);
     r_status := "uploaded"; error_message := r.(error_message);
     r_created_at := r.(r_created_at); uploaded_at := Some now |}.

Definition set_failed (msg : string) (r : recording) : recording :=
  {| r_id := r.(r_id); sentence_id := r.(sentence_id); file_id := r.(file_id);
     r_status := "failed"; error_message := Some msg;
     r_created_at := r.(r_created_at); uploaded_at := r.(uploaded_at) |}.

Definition is_pending (r : recording) : bool := String.eqb r.(r_status) "pending".

(** One pass over the recordings: only ['pending'] attempts are submitted
    (the status check before submission). Returns the new rows, the ids
    submitted, and the sentence ids to mark ['uploaded']. *)
Fixpoint reconcile_recs (now : nat) (svc : nat -> outcome) (rs : list recording)
  : list recording * list nat * list nat :=
  match rs with
  | [] => ([], [], [])
  | r :: rest =>
      let '(rest', log, up) := reconcile_recs now svc rest in
      if is_pending r then
        match svc r.(r_id) with
        | Success => (set_uploaded now r :: rest', r.(r_id) :: log, r.(sentence_id) :: up)
        | Rejected msg => (set_failed msg r :: rest', r.(r_id) :: log, up)
        | Transient => (r :: rest', r.(r_id) :: log, up)
        end
      else (r :: rest', log, up)
  end.

Definition mark_uploaded (ids : list nat) (ss : list sentence) : list sentence :=
  map (fun s => if existsb (Nat.eqb s.(s_id)) ids then set_status "uploaded" s else s) ss.

(** Modelled from the spec (4.3): the Upload Reconciler. [cred_ok] is the
    outcome of ensuring a valid credential (a refresh failure is transient:
    nothing is submitted); [svc] is the service's answer per attempt. A
    success updates the attempt and its WorkItem together. Returns the new
    state and the list of submissions made. *)
Definition reconcile (now : nat) (cred_ok : bool) (svc : nat -> outcome) (d : db)
  : db * list nat :=
  if cred_ok then
    let '(rs', log, up) := reconcile_recs now svc d.(recordings) in
    ({| users := d.(users); sentences := mark_uploaded up d.(sentences); recordings := rs' |},
     log)
  else (d, []).

(** Registration of a contributor ([/login]). *)
Definition register (u : user) (d : db) : db :=
  {| users := d.(users) ++ [u]; sentences := d.(sentences); recordings := d.(recordings) |}.

(** The events of the bot. The corpus service is assumed to list each
    sentence once per [fetchSentences] answer. *)
Inductive step : db -> db -> Prop :=
| StepRegister u d : step d (register u d)
| StepSetup now c lang n cands d d' :
    NoDup (map cand_id cands) -> setup now c lang n cands d = Ok d' -> step d d'
| StepClear c d : step d (clear c d)
| StepSkip c ps d : step d (skip c ps d)
| StepCapture now c pos f d d' : capture now c pos f d = Ok d' -> step d d'
| StepReconcile now ok svc d : step d (fst (reconcile now ok svc d)).

Inductive reachable : db -> Prop :=
| reach_init : reachable empty_db
| reach_step d d' : reachable d -> step d d' -> reachable d'.

Definition active_positions (c : string) (d : db) : list nat :=
  map sentence_number
    (filter (fun s => String.eqb s.(s_cv_user_id) c && is_active s) d.(sentences)).

Inductive subseq {A : Type} : list A -> list A -> Prop :=
| subseq_nil : subseq [] []
| subseq_skip x l1 l2 : subseq l1 l2 -> subseq l1 (x :: l2)
| subseq_take x l1 l2 : subseq l1 l2 -> subseq (x :: l1) (x :: l2).

Definition unwrap (r : result db) : db := match r with Ok d => d | Err _ => empty_db end.

(** The spec's scenario: contributor ["cv-c"] draws three sentences in
    ["en"], captures position 2, captures it again, and reconciles. *)
Definition cands3 : list candidate :=
  [mkCandidate "t1" "one" "h1"; mkCandidate "t2" "two" "h2"; mkCandidate "t3" "three" "h3"].

Definition sc_setup : db := unwrap (setup 1 "cv-c" "en" 3 cands3 empty_db).
Definition sc_capture1 : db := unwrap (capture 2 "cv-c" 2 "file-a" sc_setup).
Definition sc_capture2 : db := unwrap (capture 3 "cv-c" 2 "file-b" sc_capture1).
Definition all_succeed : nat -> outcome := fun _ => Success.
Definition all_transient : nat -> outcome := fun _ => Transient.
Definition sc_uploaded : db := fst (reconcile 4 true all_succeed sc_capture2).

End Bot.

(** ** Dashboard reads ([dashboard/src/utils/supabase.ts], [pages/Home.tsx])

    A Supabase call answers [{ data, error, count }]. The code awaits the
    answers and branches on them; a thrown value is [Thrown]. *)
Module Dashboard.

Record pg_error := mkPgError { code : string; message : string }.

Record response (A : Type) := mkResponse {
  data : option A;
  error : option pg_error;
  count : option nat
}.
Arguments mkResponse {A} data error count.
Arguments data {A} r.
Arguments error {A} r.
Arguments count {A} r.

Inductive exn := PgExn (e : pg_error) | TypeError.

Inductive js (A : Type) := Returned (a : A) | Thrown (e : exn).
Arguments Returned {A} a.
Arguments Thrown {A} e.

(** PostgREST answering [.select(...)]: the rows as data. *)
Definition postgrest_rows {A : Type} (rows : list A) : response (list A) :=
  mkResponse (Some rows) None None.

(** PostgREST answering [.select(cols, { count: 'exact', head: true })]: a
    HEAD request, so no body ([data] is null) and the count in [count];
    a column missing from the relation is error 42703. *)
Definition postgrest_head {A : Type} (cols rel_cols : list string) (n : nat)
  : response (list A) :=
  if forallb (fun c => existsb (String.eqb c) rel_cols) cols
  then mkResponse None None (Some n)
  else mkResponse None (Some (mkPgError "42703" "column does not exist")) None.

Definition users_columns : list string :=
  ["telegram_id"; "cv_user_id"; "email"; "username"; "cv_token"; "current_language";
   "bot_language"; "age"; "gender"; "created_at"; "updated_at"].

Definition recordings_columns : list string :=
  ["id"; "sentence_id"; "file_id"; "status"; "error_message"; "created_at"; "uploaded_at"].

Definition uploaded_recordings (d : db) : list recording :=
  filter (fun r => String.eqb r.(r_status) "uploaded") d.(recordings).

(** A row of the [public_users] lookup: [select('cv_user_id, username, created_at')]. *)
Record public_user := mkPublicUser {
  pu_cv_user_id : string;
  pu_username : string;
  pu_created_at : nat
}.

(** The [UserStats] interface. *)
Record UserStats := mkUserStats {
  st_cv_user_id : string;
  st_username : string;
  st_joined_at : nat;
  st_total_contributions : nat;
  st_languages_contributed : nat
}.

Definition first_row {A : Type} (o : option (list A)) : option A :=
  match o with Some (x :: _) => Some x | _ => None end.

(** [getUserStats(searchValue, searchField)] (supabase.ts, lines 49-79).
    [user_resp] answers the [.single()] lookup; [stats_query id] answers
    [from('user_stats').select(...).eq('cv_user_id', id)]. *)
Definition getUserStats (user_resp : response public_user)
  (stats_query : string -> response (list Views.user_stats_row)) : js (option UserStats) :=
  match user_resp.(error) with
  | Some e => if String.eqb e.(code) "PGRST116" then Returned None else Thrown (PgExn e)
  | None =>
      match user_resp.(data) with
      | None => Thrown TypeError
      | Some u =>
          let stats := first_row (stats_query u.(pu_cv_user_id)).(data) in
          Returned (Some
            {| st_cv_user_id := u.(pu_cv_user_id);
               st_username := u.(pu_username);
               st_joined_at := u.(pu_created_at);
               st_total_contributions :=
                 match stats with Some s => s.(Views.total_contributions) | None => 0 end;
               st_languages_contributed :=
                 match stats with Some s => s.(Views.languages_contributed) | None => 0 end |})
      end
  end.

Record Totals := mkTotals { totalContributors : nat; totalRecordings : nat }.

Definition length_or_zero {A : Type} (o : option (list A)) : nat :=
  match o with Some l => length l | None => 0 end.

(** [getTotalStats()] (supabase.ts, lines 199-216): [users?.length ?? 0]
    and [recordings?.length ?? 0] on the [data] of two head queries. *)
Definition getTotalStats (users_resp recordings_resp : response (list Anon.row)) : js Totals :=
  match users_resp.(error) with
  | Some e => Thrown (PgExn e)
  | None =>
      match recordings_resp.(error) with
      | Some e => Thrown (PgExn e)
      | None => Returned {| totalContributors := length_or_zero users_resp.(data);
                            totalRecordings := length_or_zero recordings_resp.(data) |}
      end
  end.

(** [getTotalStats()] against a database: [from('users').select('id', head)]
    and [from('recordings').select('id', head).eq('status', 'uploaded')]. *)
Definition getTotalStats_on (d : db) : js Totals :=
  getTotalStats (postgrest_head ["id"] users_columns (length d.(users)))
                (postgrest_head ["id"] recordings_columns (length (uploaded_recordings d))).

(** Stable insertion sort, descending on a numeric key (Postgres
    [ORDER BY ... DESC]; JS [Array.prototype.sort] with [(a, b) => key b - key a]). *)
Fixpoint insert_desc {A : Type} (key : A -> nat) (x : A) (l : list A) : list A :=
  match l with
  | [] => [x]
  | y :: r => if key y <=? key x then x :: l else y :: insert_desc key x r
  end.

Fixpoint sort_desc {A : Type} (key : A -> nat) (l : list A) : list A :=
  match l with
  | [] => []
  | x :: r => insert_desc key x (sort_desc key r)
  end.

(** [getUserSentences(cvUserId)]: [from('user_sentences').select('*')
    .eq('cv_user_id', cvUserId).order('uploaded_at', { ascending: false })];
    [net] is a transport or server error, thrown. *)
Definition getUserSentences (net : option pg_error) (d : db) (cvUserId : string)
  : js (list Views.user_sentence) :=
  match net with
  | Some e => Thrown (PgExn e)
  | None =>
      Returned (sort_desc Views.uss_uploaded_at
                  (filter (fun u => String.eqb u.(Views.uss_cv_user_id) cvUserId)
                          (Views.user_sentences d)))
  end.

Record HomeTotals := mkHomeTotals { h_contributors : nat; h_recordings : nat; h_languages : nat }.

Definition stat_total (s : Views.language_stats) : nat :=
  s.(Views.recordings_uploaded) + s.(Views.recordings_pending).

(** [fetchStats()] of [Home.tsx]: three queries awaited one after the
    other. Other clients' commits [w1] and [w2] may land between them; the
    dashboard itself only reads. Returns the rendered data and the state
    after the last query. *)
Definition fetchStats_run (w1 w2 : db -> db) (d0 : db)
  : (list Views.language_stats * HomeTotals) * db :=
  let filteredStats :=
    filter (fun s => negb (String.eqb s.(Views.ls_language) "")) (Views.stats_by_language d0) in
  let sorted := sort_desc stat_total filteredStats in
  let d1 := w1 d0 in
  let userCount := length d1.(users) in
  let d2 := w2 d1 in
  let recordingCount := length (uploaded_recordings d2) in
  ((sorted, {| h_contributors := userCount; h_recordings := recordingCount;
               h_languages := length filteredStats |}), d2).

(** The same reads, all against one state. *)
Definition fetchStats_snapshot (d : db) : list Views.language_stats * HomeTotals :=
  fst (fetchStats_run (fun x => x) (fun x => x) d).

(** The reconciliation in flight in the scenario: attempt 1 is submitted
    and succeeds. *)
Definition inflight_reconcile (d : db) : db :=
  fst (Bot.reconcile 4 true Bot.all_succeed d).

End Dashboard.

(** ** Concrete states used by the witnesses and counterexamples *)
Module Scenarios.

(** A [sentences] row with status ['uploaded'] and no [recordings] row, as
    left by rows merged in from the earlier [seen_sentences] table. *)
Definition migrated_db : db :=
  mkDb [] [mkSentence 1 "cv-m" "en" 1 "t9" "nine" "h9" "uploaded" 0] [].

(** One registered user and one uploaded recording. *)
Definition totals_db : db :=
  mkDb [Anon.alice "tok"]
       [mkSentence 1 "cv-alice" "es" 1 "t1" "uno" "h1" "uploaded" 0]
       [mkRecording 1 1 "file-1" "uploaded" None 0 (Some 1)].

Definition found_user : Dashboard.response Dashboard.public_user :=
  Dashboard.mkResponse (Some (Dashboard.mkPublicUser "cv-new" "newcomer" 5)) None None.

Definition no_stats_rows (_ : string) : Dashboard.response (list Views.user_stats_row) :=
  Dashboard.postgrest_rows [].

End Scenarios.

(** ** Counting the rows behind the per-contributor views *)

(** A contributor's WorkItems with status ['uploaded']: the rows that
    [user_stats] counts and [user_sentences] lists for them. *)
Definition uploaded_by (x : string) (ss : list sentence) : list sentence :=
  filter (fun s => String.eqb s.(s_cv_user_id) x && String.eqb s.(s_status) "uploaded") ss.

(** ** PostgREST's [.single()] *)
Module PostgREST.

(** [.single()] asks for one JSON object: exactly one row is that object;
    no row or several rows are error PGRST116, with [data] null. *)
Definition single {A : Type} (rows : list A) : Dashboard.response A :=
  match rows with
  | [x] => Dashboard.mkResponse (Some x) None None
  | _ => Dashboard.mkResponse None
           (Some (Dashboard.mkPgError "PGRST116" "multiple (or no) rows returned")) None
  end.

End PostgREST.

(** ** [supabase.ts], lines 1-112: the functions next to [getUserStats] *)
Module SupabaseA.
Import Dashboard.

(** [getStatsByLanguage()] (lines 35-42; the same body at lines 150-157 and
    in part_001, lines 122-129):
    [if (error) throw error; return data || []]. *)
Definition getStatsByLanguage (resp : response (list Views.language_stats))
  : js (list Views.language_stats) :=
  match resp.(error) with
  | Some e => Thrown (PgExn e)
  | None => Returned (match resp.(data) with Some l => l | None => [] end)
  end.

(** [from('stats_by_language').select('*')] against a database. *)
Definition getStatsByLanguage_on (d : db) : js (list Views.language_stats) :=
  getStatsByLanguage (postgrest_rows (Views.stats_by_language d)).

(** The character class [[0-9a-f]] under the [i] flag. *)
Definition is_hex_digit (c : Ascii.ascii) : bool :=
  let n := Ascii.nat_of_ascii c in
  ((48 <=? n) && (n <=? 57)) || ((97 <=? n) && (n <=? 102)) || ((65 <=? n) && (n <=? 70)).

(** [[0-9a-f]{k}]: consume exactly [k] hex digits. *)
Fixpoint hex_run (k : nat) (s : string) : option string :=
  match k with
  | 0 => Some s
  | S k' =>
      match s with
      | EmptyString => None
      | String c rest => if is_hex_digit c then hex_run k' rest else None
      end
  end.

(** The literal [-]. *)
Definition dash (s : string) : option string :=
  match s with
  | String c rest => if Ascii.eqb c "-"%char then Some rest else None
  | EmptyString => None
  end.

Definition and_then (o : option string) (f : string -> option string) : option string :=
  match o with Some s => f s | None => None end.

(** [(-[0-9a-f]{k})] for each [k] of the list, in order. *)
Fixpoint dash_groups (ks : list nat) (s : string) : option string :=
  match ks with
  | [] => Some s
  | k :: ks' => and_then (and_then (dash s) (hex_run k)) (dash_groups ks')
  end.

(** [isUUID(str)] (lines 45-47):
    [/^[0-9a-f]{8}-[0-9a-f]{4}-[0-9a-f]{4}-[0-9a-f]{4}-[0-9a-f]{12}$/i.test(str)];
    [^] and [$] anchor at both ends of the input. *)
Definition isUUID (str : string) : bool :=
  match and_then (hex_run 8 str) (dash_groups [4; 4; 4; 12]) with
  | Some EmptyString => true
  | _ => false
  end.

(** Every character of a string is a hex digit. *)
Fixpoint all_hex (s : string) : bool :=
  match s with
  | EmptyString => true
  | String c rest => is_hex_digit c && all_hex rest
  end.

(** ASCII upper-casing ([a-z] to [A-Z]), to state case-insensitivity. *)
Definition to_upper (c : Ascii.ascii) : Ascii.ascii :=
  let n := Ascii.nat_of_ascii c in
  if (97 <=? n) && (n <=? 122) then Ascii.ascii_of_nat (n - 32) else c.

Fixpoint upper (s : string) : string :=
  match s with
  | EmptyString => EmptyString
  | String c rest => String (to_upper c) (upper rest)
  end.

(** [getTotalStats()] (lines 92-112): a head count on [public_users] and
    the [recordings_uploaded] column of [stats_by_language], summed with
    [(langStats || []).reduce((sum, s) => sum + s.recordings_uploaded, 0)];
    both queries are issued before either error is checked. *)
Definition getTotalStats (users_resp : response (list Anon.row))
  (stats_resp : response (list Views.language_stats)) : js Totals :=
  match users_resp.(error) with
  | Some e => Thrown (PgExn e)
  | None =>
      match stats_resp.(error) with
      | Some e => Thrown (PgExn e)
      | None =>
          let langStats := match stats_resp.(data) with Some l => l | None => [] end in
          let totalRecordings :=
            fold_left (fun sum s => sum + s.(Views.recordings_uploaded)) langStats 0 in
          Returned {| totalContributors :=
                        match users_resp.(count) with Some n => n | None => 0 end;
                      totalRecordings := totalRecordings |}
      end
  end.

(** [getTotalStats()] against a database whose [public_users] relation
    (not defined in [schema.sql]) counts [n_public] rows. *)
Definition getTotalStats_on (n_public : nat) (d : db) : js Totals :=
  getTotalStats (mkResponse None None (Some n_public)) (postgrest_rows (Views.stats_by_language d)).

Inductive search_field := by_cv_user_id | by_username.

Definition field_value (f : search_field) (u : public_user) : string :=
  match f with by_cv_user_id => u.(pu_cv_user_id) | by_username => u.(pu_username) end.

(** [getUserStats(searchValue, searchField)] (lines 49-79) against the given
    rows of [public_users] (a relation [schema.sql] does not define) and the
    [user_stats] view of [d]: [.eq(searchField, searchValue).single()], then
    [from('user_stats')...eq('cv_user_id', user.cv_user_id)]. *)
Definition getUserStats_on (public_users : list public_user) (f : search_field) (v : string)
  (d : db) : js (option UserStats) :=
  getUserStats (PostgREST.single (filter (fun u => String.eqb (field_value f u) v) public_users))
    (fun id => postgrest_rows
                 (filter (fun r => String.eqb r.(Views.us_cv_user_id) id) (Views.user_stats d))).

End SupabaseA.

(** ** [supabase.ts], lines 114-217: [getUserStats] on the [users] table *)
Module SupabaseB.

(** The [UserStats] interface of lines 133-140. *)
Record UserStats := mkUserStats {
  b_cv_user_id : string;
  b_username : string;
  b_joined_at : nat;
  b_current_language : option string;
  b_total_contributions : nat;
  b_languages_contributed : nat
}.

(** A row of [select('cv_user_id, username, current_language, created_at')]. *)
Record user_lookup := mkUserLookup {
  ul_cv_user_id : string;
  ul_username : string;
  ul_current_language : option string;
  ul_created_at : nat
}.

Definition lookup_of (u : user) : user_lookup :=
  mkUserLookup u.(u_cv_user_id) u.(username) u.(current_language) u.(u_created_at).

(** [getUserStats(cvUserId)] (lines 159-187): [user_resp] answers the
    [.single()] lookup on [users]; [stats_resp] answers the [.single()]
    query on [user_stats], whose error is not looked at. *)
Definition getUserStats (user_resp : Dashboard.response user_lookup)
  (stats_resp : Dashboard.response Views.user_stats_row) : Dashboard.js (option UserStats) :=
  match Dashboard.error user_resp with
  | Some e =>
      if String.eqb (Dashboard.code e) "PGRST116" then Dashboard.Returned None
      else Dashboard.Thrown (Dashboard.PgExn e)
  | None =>
      match Dashboard.data user_resp with
      | None => Dashboard.Thrown Dashboard.TypeError
      | Some u =>
          let stats := Dashboard.data stats_resp in
          Dashboard.Returned (Some
            {| b_cv_user_id := u.(ul_cv_user_id);
               b_username := u.(ul_username);
               b_joined_at := u.(ul_created_at);
               b_current_language := u.(ul_current_language);
               b_total_contributions :=
                 match stats with Some s => s.(Views.total_contributions) | None => 0 end;
               b_languages_contributed :=
                 match stats with Some s => s.(Views.languages_contributed) | None => 0 end |})
      end
  end.

(** Both queries against a database; the anon policy on [users] lets the
    lookup read the table. *)
Definition getUserStats_on (d : db) (cvUserId : string) : Dashboard.js (option UserStats) :=
  getUserStats
    (PostgREST.single (map lookup_of (filter (fun u => String.eqb u.(u_cv_user_id) cvUserId) d.(users))))
    (PostgREST.single (filter (fun r => String.eqb r.(Views.us_cv_user_id) cvUserId) (Views.user_stats d))).

End SupabaseB.

(** ** part_001, lines 86-174: [getUserStats] on the [user_stats] view *)
Module SupabaseC.

(** [getUserStats(cvUserId)] (lines 131-143):
    [from('user_stats').select('*').eq('cv_user_id', cvUserId).single()];
    PGRST116 is [null], another error is thrown, else [return data]. *)
Definition getUserStats (resp : Dashboard.response Anon.row) : Dashboard.js (option Anon.row) :=
  match Dashboard.error resp with
  | Some e =>
      if String.eqb (Dashboard.code e) "PGRST116" then Dashboard.Returned None
      else Dashboard.Thrown (Dashboard.PgExn e)
  | None => Dashboard.Returned (Dashboard.data resp)
  end.

(** Against a database: [select('*')] yields the view's columns. *)
Definition getUserStats_on (d : db) (cvUserId : string) : Dashboard.js (option Anon.row) :=
  getUserStats (PostgREST.single
    (map Anon.user_stats_out
       (filter (fun r => String.eqb r.(Views.us_cv_user_id) cvUserId) (Views.user_stats d)))).

End SupabaseC.

(** ** part_000: the [UserStats] page *)
Module UserStatsPage.

Record state := mkState {
  stats : option Anon.row;
  page_sentences : list Views.user_sentence;
  loading : bool;
  error : option string;
  notFound : bool
}.

(** The [useState] initial values. *)
Definition initial : state := mkState None [] true None false.

(** The [catch] of [fetchUserData()] (line 35):
    [err instanceof Error ? err.message : 'Failed to load stats']. The
    supabase-js client rejects with its plain error object, which is not an
    [Error]; a [TypeError] is an [Error], whose message is
    [type_error_message]. *)
Definition error_text (type_error_message : string) (e : Dashboard.exn) : string :=
  match e with
  | Dashboard.PgExn _ => "Failed to load stats"
  | Dashboard.TypeError => type_error_message
  end.

(** [fetchUserData()] (lines 19-39). [msg] computes the text the [catch]
    stores from the rejection. [Promise.all] rejects with the rejection
    that settles first: when both calls reject, [stats_first] tells whether
    [getUserStats]'s does. [finally] clears [loading] on every path of the
    [try]; [if (!cvUserId) return] comes before it. *)
Definition fetchUserData (stats_first : bool) (msg : Dashboard.exn -> string)
  (cvUserId : option string)
  (getUserStats : string -> Dashboard.js (option Anon.row))
  (getUserSentences : string -> Dashboard.js (list Views.user_sentence)) (st : state) : state :=
  let fail e := mkState st.(stats) st.(page_sentences) false (Some (msg e)) st.(notFound) in
  match cvUserId with
  | None => st
  | Some id =>
      if String.eqb id "" then st else
      match getUserStats id, getUserSentences id with
      | Dashboard.Thrown e1, Dashboard.Thrown e2 => fail (if stats_first then e1 else e2)
      | Dashboard.Thrown e, Dashboard.Returned _ | Dashboard.Returned _, Dashboard.Thrown e => fail e
      | Dashboard.Returned statsData, Dashboard.Returned sentencesData =>
          match statsData with
          | Some s => mkState (Some s) sentencesData false st.(error) st.(notFound)
          | None => mkState st.(stats) st.(page_sentences) false st.(error) true
          end
      end
  end.

Inductive view :=
| LoadingView
| ErrorView (m : string)
| NotFoundView
| Blank
| StatsView (s : Anon.row) (sentences : list Views.user_sentence).

(** The component's returns (lines 44-74, 78-169): [if (loading)],
    [if (error)] (a non-empty string), [if (notFound)], [if (!stats) return null]. *)
Definition render (st : state) : view :=
  if st.(loading) then LoadingView else
  let rest := if st.(notFound) then NotFoundView else
              match st.(stats) with None => Blank | Some s => StatsView s st.(page_sentences) end in
  match st.(error) with
  | Some m => if String.eqb m "" then rest else ErrorView m
  | None => rest
  end.

(** The page against a database, with part_001's [getUserStats] and
    [getUserSentences] and no transport error. Neither call rejects then,
    so which rejection would settle first plays no part. *)
Definition page_on (msg : Dashboard.exn -> string) (d : db) (cvUserId : option string) : view :=
  render (fetchUserData true msg cvUserId (SupabaseC.getUserStats_on d)
            (Dashboard.getUserSentences None d) initial).

End UserStatsPage.

(** ** [Home.tsx]: the leaderboard table and the lookup form *)
Module HomePage.

(** [stats.reduce((sum, s) => sum + f(s), 0)]. *)
Definition sum_by (f : Views.language_stats -> nat) (stats : list Views.language_stats) : nat :=
  fold_left (fun sum s => sum + f s) stats 0.

(** The totals row (lines 65-67, 137-146): rendered when [stats.length > 1],
    with [totalContributors], [totalUploaded] and [totalPending]. *)
Definition total_row (stats : list Views.language_stats) : option (nat * nat * nat) :=
  if 1 <? length stats
  then Some (sum_by Views.contributors stats, sum_by Views.recordings_uploaded stats,
             sum_by Views.recordings_pending stats)
  else None.

(** The leaderboard rows [fetchStats] stores (lines 19-24). *)
Definition leaderboard (w1 w2 : db -> db) (d0 : db) : list Views.language_stats :=
  fst (fst (Dashboard.fetchStats_run w1 w2 d0)).

(** A JavaScript string as its UTF-16 code units. *)
Definition js_string := list nat.

(** WhiteSpace and LineTerminator code points, which [String.prototype.trim]
    strips: TAB, LF, VT, FF, CR, SPACE, NBSP, OGHAM SPACE MARK,
    U+2000..U+200A, LS, PS, NNBSP, MMSP, IDEOGRAPHIC SPACE, ZWNBSP. *)
Definition is_js_space (u : nat) : bool :=
  existsb (Nat.eqb u) [9; 10; 11; 12; 13; 32; 160; 5760; 8232; 8233; 8239; 8287; 12288; 65279]
  || ((8192 <=? u) && (u <=? 8202)).

Fixpoint trim_start (s : js_string) : js_string :=
  match s with
  | [] => []
  | u :: rest => if is_js_space u then trim_start rest else s
  end.

Definition trim (s : js_string) : js_string := rev (trim_start (rev (trim_start s))).

(** ["/stats/"]. *)
Definition stats_prefix : js_string := [47; 115; 116; 97; 116; 115; 47].

(** [handleLookup] (lines 50-55): [if (lookupId.trim())
    window.location.href = `/stats/${lookupId.trim()}`]; the new location. *)
Definition handleLookup (lookupId : js_string) : option js_string :=
  match trim lookupId with
  | [] => None
  | t => Some (stats_prefix ++ t)
  end.

End HomePage.

(** ** part_001, lines 1-84: the dashboard's language context *)
Module LanguageContext.

(** [localStorage] as key/value pairs; [None] when accessing it throws. *)
Definition store := list (string * string).

Record env := mkEnv {
  has_window : bool;
  storage : option store;
  navigator_language : string
}.

Definition getItem (k : string) (st : store) : option string :=
  option_map snd (find (fun kv => String.eqb (fst kv) k) st).

Definition setItem (k v : string) (st : store) : store :=
  (k, v) :: filter (fun kv => negb (String.eqb (fst kv) k)) st.

(** [getInitialLanguage()] (lines 12-22). [navigator.language.slice(0, 2)]
    is compared with the ASCII ["en"], so the byte prefix decides it. *)
Definition getInitialLanguage (e : env) : string :=
  if negb e.(has_window) then "es" else
  let browser := if String.eqb (substring 0 2 e.(navigator_language)) "en" then "en" else "es" in
  match e.(storage) with
  | None => "es"
  | Some st =>
      match getItem "dashboard_lang" st with
      | Some stored => if String.eqb stored "en" || String.eqb stored "es" then stored else browser
      | None => browser
      end
  end.

(** The state of [LanguageProvider]: [lang] and [mounted]. *)
Record provider := mkProvider { lang : string; mounted : bool }.

Record world := mkWorld { prov : provider; env_of : env }.

Definition initial_provider : provider := mkProvider "es" false.

(** The mount effect (lines 28-31). *)
Definition mount (w : world) : world :=
  mkWorld (mkProvider (getInitialLanguage w.(env_of)) true) w.(env_of).

(** [setLang(newLang)] (lines 33-40): the state, then [setItem] in a [try]. *)
Definition setLang (l : string) (w : world) : world :=
  mkWorld (mkProvider l w.(prov).(mounted))
    (mkEnv w.(env_of).(has_window) (option_map (setItem "dashboard_lang" l) w.(env_of).(storage))
           w.(env_of).(navigator_language)).

(** [useLanguage()] (lines 54-61): before the provider has mounted it
    renders its children without the context, so the default ['es'] and a
    no-op [setLang]. *)
Definition useLanguage_lang (w : world) : string :=
  if w.(prov).(mounted) then w.(prov).(lang) else "es".

Definition useLanguage_setLang (l : string) (w : world) : world :=
  if w.(prov).(mounted) then setLang l w else w.

(** [LanguageSwitcher] (lines 65-84): the [className] of the EN and ES buttons. *)
Definition switcher_classes (w : world) : string * string :=
  let l := useLanguage_lang w in
  (if String.eqb l "en" then "active" else "", if String.eqb l "es" then "active" else "").

(** A page load: a fresh provider over the same browser storage. *)
Definition reload (w : world) : world := mkWorld initial_provider w.(env_of).

Inductive lc_step : world -> world -> Prop :=
| LcMount w : w.(prov).(mounted) = false -> lc_step w (mount w)
| LcClick l w : l = "en" \/ l = "es" -> lc_step w (useLanguage_setLang l w)
| LcReload w : lc_step w (reload w).

Inductive lc_reachable : world -> Prop :=
| lc_init e : lc_reachable (mkWorld initial_provider e)
| lc_next w w' : lc_reachable w -> lc_step w w' -> lc_reachable w'.

End LanguageContext.

(** ** The bot's runs with the size of each contributor's latest batch *)
Module Batches.
Import Bot.

(** [reachable] with, for every contributor, the number of WorkItems its
    latest setup drew (0 before its first setup). *)
Inductive batch_trace : db -> (string -> nat) -> Prop :=
| bt_init : batch_trace empty_db (fun _ => 0)
| bt_register u d bs : batch_trace d bs -> batch_trace (register u d) bs
| bt_setup now c lang n cands d d' bs :
    batch_trace d bs -> NoDup (map cand_id cands) -> setup now c lang n cands d = Ok d' ->
    batch_trace d' (fun c' => if String.eqb c c'
                              then length (firstn n (unseen_candidates c lang d cands))
                              else bs c')
| bt_clear c d bs : batch_trace d bs -> batch_trace (clear c d) bs
| bt_skip c ps d bs : batch_trace d bs -> batch_trace (skip c ps d) bs
| bt_capture now c pos f d d' bs :
    batch_trace d bs -> capture now c pos f d = Ok d' -> batch_trace d' bs
| bt_reconcile now ok svc d bs : batch_trace d bs -> batch_trace (fst (reconcile now ok svc d)) bs.

(** The batch sizes of the spec's scenario: ["cv-c"] drew three WorkItems. *)
Definition sc_batches (c : string) : nat := if String.eqb "cv-c" c then 3 else 0.

End Batches.

(** ** The dashboard's reads while other clients commit *)
Module Reads.
Import Dashboard.

(** Each query is answered by the state current when it runs; [w] is what
    other clients commit between two queries of one read. Every run
    returns its result and the state afterwards. *)

(** The reads that are one query. *)
Definition getStatsByLanguage_run (d : db) : js (list Views.language_stats) * db :=
  (SupabaseA.getStatsByLanguage_on d, d).

Definition getUserSentences_run (x : string) (d : db) : js (list Views.user_sentence) * db :=
  (getUserSentences None d x, d).

Definition getUserStatsC_run (x : string) (d : db) : js (option Anon.row) * db :=
  (SupabaseC.getUserStats_on d x, d).

(** [getTotalStats()] of lines 199-216: the [users] head query, then the
    [recordings] one. *)
Definition getTotalStats_run (w : db -> db) (d0 : db) : js Totals * db :=
  let users_resp := postgrest_head ["id"] users_columns (length d0.(users)) in
  let d1 := w d0 in
  (getTotalStats users_resp (postgrest_head ["id"] recordings_columns (length (uploaded_recordings d1))),
   d1).

(** [getTotalStats()] of lines 92-112: the [public_users] count
    ([public_count], a relation [schema.sql] does not define), then
    [stats_by_language]. *)
Definition getTotalStatsA_run (public_count : db -> nat) (w : db -> db) (d0 : db) : js Totals * db :=
  let users_resp := mkResponse None None (Some (public_count d0)) in
  let d1 := w d0 in
  (SupabaseA.getTotalStats users_resp (postgrest_rows (Views.stats_by_language d1)), d1).

(** [getUserStats(searchValue, searchField)] of lines 49-79: the
    [public_users] lookup, then [user_stats]. *)
Definition getUserStatsA_run (public_users : db -> list public_user) (f : SupabaseA.search_field)
  (v : string) (w : db -> db) (d0 : db) : js (option UserStats) * db :=
  let user_resp := PostgREST.single
                     (filter (fun u => String.eqb (SupabaseA.field_value f u) v) (public_users d0)) in
  let d1 := w d0 in
  (getUserStats user_resp
     (fun id => postgrest_rows (filter (fun r => String.eqb r.(Views.us_cv_user_id) id) (Views.user_stats d1))),
   d1).

(** [getUserStats(cvUserId)] of lines 159-187: [users], then [user_stats]. *)
Definition getUserStatsB_run (x : string) (w : db -> db) (d0 : db)
  : js (option SupabaseB.UserStats) * db :=
  let user_resp := PostgREST.single (map SupabaseB.lookup_of
                     (filter (fun u => String.eqb u.(u_cv_user_id) x) d0.(users))) in
  let d1 := w d0 in
  (SupabaseB.getUserStats user_resp
     (PostgREST.single (filter (fun r => String.eqb r.(Views.us_cv_user_id) x) (Views.user_stats d1))),
   d1).

(** The UserStats page: [Promise.all] issues both calls at once; the one
    answered first ([stats_first]: [getUserStats]) sees [d0], the other
    the state after [w]. *)
Definition page_run (msg : exn -> string) (x : string) (stats_first : bool) (w : db -> db) (d0 : db)
  : UserStatsPage.view * db :=
  let d1 := w d0 in
  let ds := if stats_first then d0 else d1 in
  let dq := if stats_first then d1 else d0 in
  (UserStatsPage.render
     (UserStatsPage.fetchUserData stats_first msg (Some x) (SupabaseC.getUserStats_on ds)
        (getUserSentences None dq) UserStatsPage.initial),
   d1).

End Reads.

(** ** Auxiliary notions and sample inputs for the further properties *)

(** The (contributor, language) pair of a WorkItem. *)
Definition contribution (s : sentence) : string * string := (s.(s_cv_user_id), s.(s_language)).

Definition pair_string_dec (x y : string * string) : {x = y} + {x <> y}.
Proof. decide equality; apply string_dec. Defined.

(** Alice active in two languages, Bob in one, and a row with an empty
    language. *)
Definition languages_db : db :=
  mkDb [] [mkSentence 1 "cv-alice" "es" 1 "t1" "uno" "h1" "uploaded" 0;
           mkSentence 2 "cv-alice" "en" 1 "t2" "two" "h2" "active" 0;
           mkSentence 3 "cv-bob" "en" 2 "t3" "three" "h3" "uploaded" 0;
           mkSentence 4 "cv-bob" "" 1 "t4" "four" "h4" "uploaded" 0] [].

Definition two_alices : list Dashboard.public_user :=
  [Dashboard.mkPublicUser "cv-a1" "alice" 1; Dashboard.mkPublicUser "cv-a2" "alice" 2].

Definition user_stats_of (d : db) (x : string) : Views.user_stats_row :=
  {| Views.us_cv_user_id := x;
     Views.total_contributions := length (uploaded_by x d.(sentences));
     Views.languages_contributed := length (nodup string_dec (map s_language (uploaded_by x d.(sentences)))) |}.

Definition failing_stats (x : string) : Dashboard.js (option Anon.row) :=
  Dashboard.Thrown (Dashboard.PgExn (Dashboard.mkPgError "PGRST301" "JWT expired")).

Definition no_sentences (x : string) : Dashboard.js (list Views.user_sentence) := Dashboard.Returned [].

(** The page's error text, with the message of a [TypeError] thrown on a
    null lookup. *)
Definition error_message : Dashboard.exn -> string :=
  UserStatsPage.error_text "Cannot read properties of null (reading 'username')".

(** * Proofs *)

(** ** Generic list facts *)

Lemma filter_filter {A : Type} (p q : A -> bool) (l : list A) :
  filter p (filter q l) = filter (fun x => q x && p x) l.
Proof.
  induction l as [|x l IH]; simpl; [reflexivity|].
  destruct (q x); simpl; [destruct (p x); simpl; rewrite IH|rewrite IH]; reflexivity.
Qed.

Lemma find_eqb_in (x : string) (l : list string) :
  In x l -> find (fun y => String.eqb y x) l = Some x.
Proof.
  induction l as [|y l IH]; simpl; [tauto|].
  intros [->|H].
  - rewrite String.eqb_refl. reflexivity.
  - destruct (String.eqb y x) eqn:E; [apply String.eqb_eq in E; subst; reflexivity|].
    apply IH, H.
Qed.

Lemma find_map {A B : Type} (p : B -> bool) (f : A -> B) (l : list A) :
  find p (map f l) = option_map f (find (fun x => p (f x)) l).
Proof.
  induction l as [|x l IH]; simpl; [reflexivity|].
  destruct (p (f x)); [reflexivity|exact IH].
Qed.

(** ** C1: the anon channel *)

(** C1 (code_bug). Two states that differ only in a contributor's
    [cv_token] are told apart by a query issued with the anon role: the
    policy "Allow anon to read users" exposes the [users] table itself,
    not a derived view, with its [cv_token] column. *)
Theorem anon_select_users_exposes_cv_token :
  Anon.differ_only_in_secrets (Anon.db_token "tokA") (Anon.db_token "tokB") /\
  Anon.is_view Anon.RUsers = false /\
  Anon.anon_select (Anon.db_token "tokA") Anon.RUsers ["cv_token"] =
    [[("cv_token", Anon.VText "tokA")]] /\
  Anon.anon_select (Anon.db_token "tokA") Anon.RUsers ["cv_token"] <>
    Anon.anon_select (Anon.db_token "tokB") Anon.RUsers ["cv_token"].
Proof.
  split; [repeat split; reflexivity|].
  split; [reflexivity|].
  split; [reflexivity|].
  vm_compute. intro H. inversion H.
Qed.

(** ** C5: [stats_by_language] *)

(** C5 as stated fails: on a state with an ['uploaded'] sentence and no
    recording row, the view reports one uploaded recording where there is
    none. *)
Lemma stats_by_language_uploaded_recordings_cex :
  ~ (forall d lang, In lang (map s_language d.(sentences)) ->
       exists st, Views.stats_for d lang = Some st /\
         st.(Views.contributors) =
           Views.count_distinct (map s_cv_user_id (Views.rows_in_language lang d.(sentences))) /\
         st.(Views.recordings_uploaded) = Views.uploaded_recordings_in d lang).
Proof.
  intro H.
  destruct (H Scenarios.migrated_db "en") as (st & Hst & _ & Hup); [simpl; auto|].
  vm_compute in Hst. injection Hst as <-. vm_compute in Hup. discriminate.
Qed.

(** C5 (amended). For every language present, [stats_by_language] reports
    [contributors] = the number of distinct contributors holding WorkItems
    in that language and [recordings_uploaded] = the number of that
    language's WorkItems whose status is ['uploaded']. *)
Theorem stats_by_language_counts (d : db) (lang : string) :
  In lang (map s_language d.(sentences)) ->
  exists st, Views.stats_for d lang = Some st /\
    st.(Views.contributors) =
      length (nodup string_dec
        (map s_cv_user_id (filter (fun s => String.eqb s.(s_language) lang) d.(sentences)))) /\
    st.(Views.recordings_uploaded) =
      length (filter (fun s => String.eqb s.(s_language) lang && String.eqb s.(s_status) "uploaded")
                     d.(sentences)).
Proof.
  intro Hin.
  unfold Views.stats_for, Views.stats_by_language.
  rewrite find_map. simpl.
  rewrite find_eqb_in by (apply nodup_In; exact Hin).
  eexists; split; [reflexivity|]. simpl. split; [reflexivity|].
  unfold Views.with_status, Views.rows_in_language. rewrite filter_filter. reflexivity.
Qed.

Lemma stats_by_language_counts_witness :
  In "en" (map s_language Scenarios.migrated_db.(sentences)) /\
  exists st, Views.stats_for Scenarios.migrated_db "en" = Some st /\
    st.(Views.contributors) =
      length (nodup string_dec (map s_cv_user_id
        (filter (fun s => String.eqb s.(s_language) "en") Scenarios.migrated_db.(sentences)))) /\
    st.(Views.recordings_uploaded) =
      length (filter (fun s => String.eqb s.(s_language) "en" && String.eqb s.(s_status) "uploaded")
                     Scenarios.migrated_db.(sentences)).
Proof.
  split; [simpl; auto|].
  apply (stats_by_language_counts Scenarios.migrated_db "en"). simpl; auto.
Defined.

(** ** C6: [fetchStats] *)

(** C6 as stated fails: when the reconciliation of the scenario's pending
    recording commits between [fetchStats]'s second and third query, the
    rendered result equals the one-snapshot result of none of the states
    the read went through. *)
Lemma fetchStats_straddles_reconciliation_cex :
  ~ (forall w1 w2 d0, exists d, In d [d0; w1 d0; w2 (w1 d0)] /\
       fst (Dashboard.fetchStats_run w1 w2 d0) = Dashboard.fetchStats_snapshot d).
Proof.
  intro H.
  destruct (H (fun x => x) Dashboard.inflight_reconcile Bot.sc_capture2)
    as (d & Hin & Heq).
  simpl in Hin. destruct Hin as [<-|[<-|[<-|[]]]]; vm_compute in Heq; discriminate.
Qed.

(** ** C8: [getTotalStats] *)

(** C8 (code_bug). With one registered user and one uploaded recording,
    [getTotalStats] does not return [{1, 1}]: both queries are
    [head: true], whose [data] is null, and the code reads [data?.length]
    (here it throws, as [users] has no [id] column); even when both head
    queries succeed it returns [{0, 0}] whatever the counts. *)
Theorem getTotalStats_drops_head_counts :
  length Scenarios.totals_db.(users) = 1 /\
  length (Dashboard.uploaded_recordings Scenarios.totals_db) = 1 /\
  Dashboard.getTotalStats_on Scenarios.totals_db <>
    Dashboard.Returned {| Dashboard.totalContributors := 1; Dashboard.totalRecordings := 1 |} /\
  Dashboard.getTotalStats (Dashboard.postgrest_head ["id"] ["id"] 1)
                          (Dashboard.postgrest_head ["id"] Dashboard.recordings_columns 1) =
    Dashboard.Returned {| Dashboard.totalContributors := 0; Dashboard.totalRecordings := 0 |}.
Proof.
  split; [reflexivity|]. split; [reflexivity|].
  split; [vm_compute; discriminate|reflexivity].
Qed.

(** ** C9: [getUserStats] *)

(** C9. [getUserStats] returns [null] exactly when the user lookup reports
    error PGRST116, throws any other lookup error, and returns zero counts
    when the user exists but the [user_stats] query yields no row. *)
Theorem getUserStats_contract (ur : Dashboard.response Dashboard.public_user)
  (sq : string -> Dashboard.response (list Views.user_stats_row)) :
  (Dashboard.getUserStats ur sq = Dashboard.Returned None <->
     exists e, Dashboard.error ur = Some e /\ Dashboard.code e = "PGRST116") /\
  (forall e, Dashboard.error ur = Some e -> Dashboard.code e <> "PGRST116" ->
     Dashboard.getUserStats ur sq = Dashboard.Thrown (Dashboard.PgExn e)) /\
  (forall u, Dashboard.error ur = None -> Dashboard.data ur = Some u ->
     Dashboard.first_row (Dashboard.data (sq u.(Dashboard.pu_cv_user_id))) = None ->
     exists st, Dashboard.getUserStats ur sq = Dashboard.Returned (Some st) /\
       st.(Dashboard.st_total_contributions) = 0 /\ st.(Dashboard.st_languages_contributed) = 0).
Proof.
  unfold Dashboard.getUserStats.
  split; [|split].
  - destruct (Dashboard.error ur) as [e|] eqn:He; split.
    + destruct (String.eqb (Dashboard.code e) "PGRST116") eqn:Ec; [|discriminate].
      intros _. exists e. split; [reflexivity|]. apply String.eqb_eq, Ec.
    + intros (e' & He' & Hc). injection He' as <-. rewrite Hc. reflexivity.
    + destruct (Dashboard.data ur); discriminate.
    + intros (e' & He' & _). discriminate.
  - intros e He Hc. rewrite He.
    destruct (String.eqb (Dashboard.code e) "PGRST116") eqn:Ec;
      [apply String.eqb_eq in Ec; contradiction|reflexivity].
  - intros u He Hd Hs. rewrite He, Hd, Hs. eexists; split; [reflexivity|]. split; reflexivity.
Qed.

Lemma getUserStats_contract_witness :
  Dashboard.error Scenarios.found_user = None /\
  Dashboard.data Scenarios.found_user = Some (Dashboard.mkPublicUser "cv-new" "newcomer" 5) /\
  Dashboard.first_row (Dashboard.data (Scenarios.no_stats_rows "cv-new")) = None /\
  exists st, Dashboard.getUserStats Scenarios.found_user Scenarios.no_stats_rows =
               Dashboard.Returned (Some st) /\
    st.(Dashboard.st_total_contributions) = 0 /\ st.(Dashboard.st_languages_contributed) = 0.
Proof.
  split; [reflexivity|]. split; [reflexivity|]. split; [reflexivity|].
  destruct (getUserStats_contract Scenarios.found_user Scenarios.no_stats_rows) as (_ & _ & H).
  apply (H (Dashboard.mkPublicUser "cv-new" "newcomer" 5)); reflexivity.
Defined.

(** ** C10: [getUserSentences] *)

Section SortDesc.
Variable A : Type.
Variable key : A -> nat.

Let R (a b : A) : Prop := key b <= key a.

Lemma insert_desc_perm (x : A) (l : list A) : Permutation (Dashboard.insert_desc key x l) (x :: l).
Proof.
  induction l as [|y l IH]; simpl; [reflexivity|].
  destruct (key y <=? key x); [reflexivity|].
  rewrite IH. apply perm_swap.
Qed.

Lemma sort_desc_perm (l : list A) : Permutation (Dashboard.sort_desc key l) l.
Proof.
  induction l as [|x l IH]; simpl; [reflexivity|].
  rewrite insert_desc_perm. apply perm_skip, IH.
Qed.

Lemma insert_desc_sorted (x : A) (l : list A) :
  Sorted R l -> Sorted R (Dashboard.insert_desc key x l).
Proof.
  induction 1 as [|y l Hs IH Hhd]; simpl.
  - repeat constructor.
  - destruct (key y <=? key x) eqn:E.
    + apply Nat.leb_le in E. constructor; [constructor; assumption|]. constructor. exact E.
    + apply Nat.leb_gt in E. constructor; [exact IH|].
      destruct l as [|z l]; simpl.
      * constructor. unfold R. lia.
      * inversion Hhd; subst.
        destruct (key z <=? key x); constructor; unfold R in *; lia.
Qed.

Lemma sort_desc_sorted (l : list A) : Sorted R (Dashboard.sort_desc key l).
Proof.
  induction l as [|x l IH]; simpl; [constructor|].
  apply insert_desc_sorted, IH.
Qed.

End SortDesc.

(** C10. [getUserSentences(cvUserId)] returns exactly the [user_sentences]
    rows of the sentences of [cvUserId] with status ['uploaded'] (a
    permutation of them, no other row), sorted by [uploaded_at] descending;
    a query error is thrown. *)
Theorem getUserSentences_uploaded_desc (d : db) (cvUserId : string) :
  (exists l, Dashboard.getUserSentences None d cvUserId = Dashboard.Returned l /\
     Permutation l
       (map Views.user_sentence_of
          (filter (fun s => String.eqb s.(s_cv_user_id) cvUserId &&
                            String.eqb s.(s_status) "uploaded") d.(sentences))) /\
     Sorted (fun a b => b.(Views.uss_uploaded_at) <= a.(Views.uss_uploaded_at)) l) /\
  (forall e, Dashboard.getUserSentences (Some e) d cvUserId = Dashboard.Thrown (Dashboard.PgExn e)).
Proof.
  split; [|reflexivity].
  eexists; split; [reflexivity|]. split.
  - rewrite sort_desc_perm. unfold Views.user_sentences, Views.with_status.
    rewrite filter_map_swap. simpl. rewrite filter_filter.
    apply Permutation_refl'. f_equal. apply filter_ext. intro s. apply andb_comm.
  - apply (sort_desc_sorted _ Views.uss_uploaded_at).
Qed.

(** ** C4: the Upload Reconciler run twice *)

Lemma reconcile_recs_spec (now : nat) (svc : nat -> Bot.outcome) (rs : list recording) :
  let '(rs', log, up) := Bot.reconcile_recs now svc rs in
  log = map r_id (filter Bot.is_pending rs) /\
  filter Bot.is_pending rs' =
    filter (fun r => Bot.is_pending r && Bot.is_transient (svc r.(r_id))) rs /\
  map sentence_id rs' = map sentence_id rs.
Proof.
  induction rs as [|r rs IH]; simpl; [auto|].
  destruct (Bot.reconcile_recs now svc rs) as [[rs' log] up].
  destruct IH as (Hlog & Hpend & Hsid).
  destruct (Bot.is_pending r) eqn:Hp; simpl.
  - destruct (svc (r_id r)) eqn:Hs; simpl; rewrite ?Hp, ?Hlog, ?Hpend, ?Hsid; auto.
  - rewrite Hp, Hlog, Hpend, Hsid. auto.
Qed.

Lemma reconcile_recs_no_pending (now : nat) (svc : nat -> Bot.outcome) (rs : list recording) :
  filter Bot.is_pending rs = [] -> Bot.reconcile_recs now svc rs = (rs, [], []).
Proof.
  induction rs as [|r rs IH]; simpl; [reflexivity|].
  destruct (Bot.is_pending r); [discriminate|].
  intro H. rewrite (IH H). reflexivity.
Qed.

Lemma mark_uploaded_nil (ss : list sentence) : Bot.mark_uploaded [] ss = ss.
Proof. induction ss as [|s ss IH]; simpl; [reflexivity|]. rewrite IH. reflexivity. Qed.

Lemma filter_none_true {A : Type} (p : A -> bool) (l : list A) :
  (forall x, In x l -> p x = false) -> filter p l = [].
Proof.
  induction l as [|x l IH]; simpl; [reflexivity|].
  intro H. rewrite (H x (or_introl eq_refl)). apply IH. intros y Hy. apply H. right. exact Hy.
Qed.

Lemma reconcile_log (now : nat) (ok : bool) (svc : nat -> Bot.outcome) (d : db) :
  snd (Bot.reconcile now ok svc d) =
    (if ok then map r_id (filter Bot.is_pending d.(recordings)) else []).
Proof.
  unfold Bot.reconcile. destruct ok; [|reflexivity].
  pose proof (reconcile_recs_spec now svc d.(recordings)) as H.
  destruct (Bot.reconcile_recs now svc d.(recordings)) as [[rs' log] up].
  destruct H as (Hlog & _ & _). exact Hlog.
Qed.

(** C4 as stated fails: when the first run meets a transient error, the
    second run submits the attempt again. *)
Lemma reconcile_rerun_not_idempotent_cex :
  ~ (forall now1 ok1 svc1 now2 ok2 svc2 d,
       let d1 := fst (Bot.reconcile now1 ok1 svc1 d) in
       snd (Bot.reconcile now2 ok2 svc2 d1) = [] /\ fst (Bot.reconcile now2 ok2 svc2 d1) = d1).
Proof.
  intro H.
  destruct (H 4 true Bot.all_transient 5 true Bot.all_succeed Bot.sc_capture2) as [Hlog _].
  vm_compute in Hlog. discriminate.
Qed.

(** C4 (amended). A second reconciliation run submits exactly the attempts
    the first left ['pending'] (never an ['uploaded'] or ['failed'] one);
    after a first run with a valid credential these are the attempts whose
    submission met a transient error; if there was none, the second run
    submits nothing and leaves the state unchanged. *)
Theorem reconcile_rerun_submits_only_leftovers (now1 : nat) (ok1 : bool)
  (svc1 : nat -> Bot.outcome) (now2 : nat) (ok2 : bool) (svc2 : nat -> Bot.outcome) (d : db) :
  let d1 := fst (Bot.reconcile now1 ok1 svc1 d) in
  let run2 := Bot.reconcile now2 ok2 svc2 d1 in
  snd run2 = (if ok2 then map r_id (filter Bot.is_pending d1.(recordings)) else []) /\
  (ok1 = true ->
     filter Bot.is_pending d1.(recordings) =
     filter (fun r => Bot.is_pending r && Bot.is_transient (svc1 r.(r_id))) d.(recordings)) /\
  (ok1 = true ->
     (forall r, In r d.(recordings) -> Bot.is_pending r = true -> svc1 r.(r_id) <> Bot.Transient) ->
     snd run2 = [] /\ fst run2 = d1).
Proof.
  cbv zeta.
  assert (Hp1 : ok1 = true ->
     filter Bot.is_pending (fst (Bot.reconcile now1 ok1 svc1 d)).(recordings) =
     filter (fun r => Bot.is_pending r && Bot.is_transient (svc1 r.(r_id))) d.(recordings)).
  { intros ->. unfold Bot.reconcile.
    pose proof (reconcile_recs_spec now1 svc1 d.(recordings)) as H.
    destruct (Bot.reconcile_recs now1 svc1 d.(recordings)) as [[rs' log] up].
    destruct H as (_ & Hpend & _). exact Hpend. }
  split; [apply reconcile_log|]. split; [exact Hp1|].
  intros Hok Hnt.
  assert (Hnone : filter Bot.is_pending (fst (Bot.reconcile now1 ok1 svc1 d)).(recordings) = []).
  { rewrite (Hp1 Hok). apply filter_none_true. intros r Hin.
    destruct (Bot.is_pending r) eqn:Hp; [|reflexivity]. simpl.
    specialize (Hnt r Hin Hp). destruct (svc1 (r_id r)); [reflexivity|reflexivity|congruence]. }
  set (d1 := fst (Bot.reconcile now1 ok1 svc1 d)) in *.
  split.
  - rewrite reconcile_log, Hnone. destruct ok2; reflexivity.
  - unfold Bot.reconcile. destruct ok2; [|reflexivity].
    rewrite (reconcile_recs_no_pending now2 svc2 _ Hnone). simpl.
    rewrite mark_uploaded_nil. destruct d1; reflexivity.
Qed.

Lemma reconcile_rerun_submits_only_leftovers_witness :
  true = true /\
  (forall r, In r Bot.sc_capture2.(recordings) -> Bot.is_pending r = true ->
     Bot.all_succeed r.(r_id) <> Bot.Transient) /\
  snd (Bot.reconcile 5 true Bot.all_succeed (fst (Bot.reconcile 4 true Bot.all_succeed Bot.sc_capture2))) = [] /\
  fst (Bot.reconcile 5 true Bot.all_succeed (fst (Bot.reconcile 4 true Bot.all_succeed Bot.sc_capture2))) =
    fst (Bot.reconcile 4 true Bot.all_succeed Bot.sc_capture2).
Proof.
  assert (Hnt : forall r, In r Bot.sc_capture2.(recordings) -> Bot.is_pending r = true ->
                Bot.all_succeed r.(r_id) <> Bot.Transient) by (intros; discriminate).
  split; [reflexivity|]. split; [exact Hnt|].
  destruct (reconcile_rerun_submits_only_leftovers 4 true Bot.all_succeed 5 true Bot.all_succeed
              Bot.sc_capture2) as (_ & _ & H).
  apply H; [reflexivity|exact Hnt].
Defined.

(** ** Reachable states of the bot *)

(** The status updates of [clear], [skip] and [reconcile] keep a
    sentence's owner, language, text identifier and position, and never
    make a sentence active. *)
Definition keeps_keys (f : sentence -> sentence) : Prop :=
  forall s, s_cv_user_id (f s) = s_cv_user_id s /\ s_language (f s) = s_language s /\
            text_id (f s) = text_id s /\ sentence_number (f s) = sentence_number s /\
            (Bot.is_active (f s) = true -> Bot.is_active s = true).

Lemma keeps_keys_cond (b : sentence -> bool) (st : string) :
  String.eqb st "active" = false ->
  keeps_keys (fun s => if b s then Bot.set_status st s else s).
Proof.
  intros Hst s. destruct (b s); simpl; [|tauto].
  repeat split. unfold Bot.is_active. simpl. rewrite Hst. discriminate.
Qed.

Lemma clear_keeps (c : string) :
  keeps_keys (fun s => if String.eqb s.(s_cv_user_id) c && Bot.is_active s
                       then Bot.set_status "skipped" s else s).
Proof. apply keeps_keys_cond. reflexivity. Qed.

Lemma skip_keeps (c : string) (ps : list nat) :
  keeps_keys (fun s => if String.eqb s.(s_cv_user_id) c && Bot.is_active s
                          && existsb (Nat.eqb s.(sentence_number)) ps
                       then Bot.set_status "skipped" s else s).
Proof. apply keeps_keys_cond. reflexivity. Qed.

Lemma mark_uploaded_keeps (ids : list nat) :
  keeps_keys (fun s => if existsb (Nat.eqb s.(s_id)) ids then Bot.set_status "uploaded" s else s).
Proof. apply keeps_keys_cond. reflexivity. Qed.

Lemma setup_ok_inv (now : nat) (c lang : string) (n : nat) (cands : list Bot.candidate)
  (d d' : db) :
  Bot.setup now c lang n cands d = Bot.Ok d' ->
  firstn n (Bot.unseen_candidates c lang d cands) <> [] /\
  d' = Bot.with_sentences (Bot.clear c d)
         ((Bot.clear c d).(sentences) ++
          Bot.make_batch c lang now (Bot.next_sentence_id (Bot.clear c d).(sentences)) 1
            (firstn n (Bot.unseen_candidates c lang d cands))).
Proof.
  unfold Bot.setup. destruct (Bot.max_sentences <? n); [discriminate|].
  destruct (firstn n (Bot.unseen_candidates c lang d cands)) eqn:E; [discriminate|].
  intro H. injection H as <-. split; [discriminate|reflexivity].
Qed.

Lemma capture_ok_inv (now : nat) (c : string) (pos : nat) (f : string) (d d' : db) :
  Bot.capture now c pos f d = Bot.Ok d' ->
  exists s, Bot.find_active c pos d.(sentences) = Some s /\
    d' = Bot.with_recordings d
           (Bot.upsert_recording
              (mkRecording (Bot.next_recording_id d.(recordings)) s.(s_id) f "pending" None now None)
              (Bot.recapture f) d.(recordings)).
Proof.
  unfold Bot.capture. destruct (Bot.find_active c pos d.(sentences)) as [s|]; [|discriminate].
  intro H. injection H as <-. exists s. split; reflexivity.
Qed.

Lemma reconcile_shape (now : nat) (ok : bool) (svc : nat -> Bot.outcome) (d : db) :
  fst (Bot.reconcile now ok svc d) = d \/
  exists up, (fst (Bot.reconcile now ok svc d)).(sentences) = Bot.mark_uploaded up d.(sentences) /\
    map sentence_id (fst (Bot.reconcile now ok svc d)).(recordings) = map sentence_id d.(recordings).
Proof.
  unfold Bot.reconcile. destruct ok; [|left; reflexivity]. right.
  pose proof (reconcile_recs_spec now svc d.(recordings)) as H.
  destruct (Bot.reconcile_recs now svc d.(recordings)) as [[rs' log] up].
  destruct H as (_ & _ & Hsid). exists up. split; [reflexivity|exact Hsid].
Qed.

(** ** C3: one RecordingAttempt per WorkItem *)

Lemma map_sid_update (x : nat) (g : recording -> recording) (rs : list recording) :
  (forall r, sentence_id (g r) = sentence_id r) ->
  map sentence_id (map (fun r => if Nat.eqb r.(sentence_id) x then g r else r) rs) =
  map sentence_id rs.
Proof.
  intro Hg. induction rs as [|r rs IH]; simpl; [reflexivity|].
  rewrite IH. destruct (Nat.eqb (sentence_id r) x); [rewrite Hg|]; reflexivity.
Qed.

Lemma recording_for_none (x : nat) (rs : list recording) :
  Bot.recording_for x rs = None -> ~ In x (map sentence_id rs).
Proof.
  intros H Hin. apply in_map_iff in Hin. destruct Hin as (r & Hr & Hin).
  pose proof (find_none _ _ H r Hin) as E. simpl in E.
  apply Nat.eqb_neq in E. contradiction.
Qed.

Lemma upsert_keeps_nodup (fresh : recording) (g : recording -> recording) (rs : list recording) :
  (forall r, sentence_id (g r) = sentence_id r) ->
  NoDup (map sentence_id rs) -> NoDup (map sentence_id (Bot.upsert_recording fresh g rs)).
Proof.
  intros Hg Hnd. unfold Bot.upsert_recording.
  destruct (Bot.recording_for (sentence_id fresh) rs) eqn:E.
  - rewrite map_sid_update by exact Hg. exact Hnd.
  - rewrite map_app. apply NoDup_app; [exact Hnd|repeat constructor; simpl; tauto|].
    intros a Ha [<-|[]]. exact (recording_for_none _ _ E Ha).
Qed.

Lemma step_keeps_recording_nodup (d d' : db) :
  Bot.step d d' -> NoDup (map sentence_id d.(recordings)) ->
  NoDup (map sentence_id d'.(recordings)).
Proof.
  intros Hs Hnd. destruct Hs as [u d|now c lang n cands d d' _ Hset|c d|c ps d
                                 |now c pos f d d' Hcap|now ok svc d].
  - exact Hnd.
  - apply setup_ok_inv in Hset. destruct Hset as [_ ->]. exact Hnd.
  - exact Hnd.
  - exact Hnd.
  - apply capture_ok_inv in Hcap. destruct Hcap as (s & _ & ->).
    apply upsert_keeps_nodup; [reflexivity|exact Hnd].
  - destruct (reconcile_shape now ok svc d) as [->|(up & _ & Hsid)]; [exact Hnd|].
    rewrite Hsid. exact Hnd.
Qed.

Lemma reachable_recording_nodup (d : db) :
  Bot.reachable d -> NoDup (map sentence_id d.(recordings)).
Proof.
  induction 1 as [|d d' _ IH Hs]; [constructor|].
  exact (step_keeps_recording_nodup d d' Hs IH).
Qed.

Lemma filter_sid_unique (x : nat) (r : recording) (rs : list recording) :
  NoDup (map sentence_id rs) -> In r rs -> sentence_id r = x ->
  filter (fun q => Nat.eqb q.(sentence_id) x) rs = [r].
Proof.
  induction rs as [|r0 rs IH]; simpl; [tauto|].
  intros Hnd Hin Hx. inversion Hnd as [|? ? Hnot Hnd']; subst.
  destruct Hin as [<-|Hin].
  - rewrite Nat.eqb_refl. f_equal. apply filter_none_true.
    intros q Hq. apply Nat.eqb_neq. intro E. apply Hnot. rewrite <- E. apply in_map, Hq.
  - assert (E : Nat.eqb (sentence_id r0) (sentence_id r) = false).
    { apply Nat.eqb_neq. intro E. apply Hnot. rewrite E. apply in_map, Hin. }
    rewrite E. apply IH; auto.
Qed.

Lemma filter_sid_update (x : nat) (g : recording -> recording) (rs : list recording) :
  (forall r, sentence_id (g r) = sentence_id r) ->
  filter (fun q => Nat.eqb q.(sentence_id) x)
         (map (fun r => if Nat.eqb r.(sentence_id) x then g r else r) rs) =
  map g (filter (fun q => Nat.eqb q.(sentence_id) x) rs).
Proof.
  intro Hg. induction rs as [|r rs IH]; simpl; [reflexivity|].
  destruct (Nat.eqb (sentence_id r) x) eqn:E; simpl.
  - rewrite Hg, E, IH. reflexivity.
  - rewrite E, IH. reflexivity.
Qed.

Lemma cands3_nodup : NoDup (map Bot.cand_id Bot.cands3).
Proof. simpl. repeat constructor; simpl; intuition discriminate. Qed.

Lemma reach_sc_setup : Bot.reachable Bot.sc_setup.
Proof.
  eapply Bot.reach_step; [apply Bot.reach_init|].
  apply (Bot.StepSetup 1 "cv-c" "en" 3 Bot.cands3); [apply cands3_nodup|vm_compute; reflexivity].
Qed.

Lemma reach_sc_capture1 : Bot.reachable Bot.sc_capture1.
Proof.
  eapply Bot.reach_step; [apply reach_sc_setup|].
  apply (Bot.StepCapture 2 "cv-c" 2 "file-a"). vm_compute. reflexivity.
Qed.

Lemma reach_sc_capture2 : Bot.reachable Bot.sc_capture2.
Proof.
  eapply Bot.reach_step; [apply reach_sc_capture1|].
  apply (Bot.StepCapture 3 "cv-c" 2 "file-b"). vm_compute. reflexivity.
Qed.

Lemma reach_sc_uploaded : Bot.reachable Bot.sc_uploaded.
Proof.
  eapply Bot.reach_step; [apply reach_sc_capture2|]. apply Bot.StepReconcile.
Qed.

(** C3. In every reachable state each WorkItem has at most one
    RecordingAttempt row ([sentence_id] is unique in [recordings]); a
    capture for an active position leaves exactly one row for its WorkItem,
    holding the new artifact with status ['pending'], and when a row
    already existed it is replaced, not joined by a second one. *)
Theorem recording_attempt_unique_and_replaced (d : db) :
  Bot.reachable d ->
  NoDup (map sentence_id d.(recordings)) /\
  (forall now c pos f d', Bot.capture now c pos f d = Bot.Ok d' ->
     exists s r', Bot.find_active c pos d.(sentences) = Some s /\
       filter (fun q => Nat.eqb q.(sentence_id) s.(s_id)) d'.(recordings) = [r'] /\
       r'.(file_id) = f /\ r'.(r_status) = "pending" /\
       (Bot.recording_for s.(s_id) d.(recordings) <> None ->
        length d'.(recordings) = length d.(recordings))).
Proof.
  intro Hr. pose proof (reachable_recording_nodup d Hr) as Hnd.
  split; [exact Hnd|].
  intros now c pos f d' Hcap.
  apply capture_ok_inv in Hcap. destruct Hcap as (s & Hfind & ->).
  unfold Bot.upsert_recording. simpl.
  destruct (Bot.recording_for (s_id s) d.(recordings)) as [r0|] eqn:E.
  - destruct (find_some _ _ E) as [Hin Hsid]. simpl in Hsid. apply Nat.eqb_eq in Hsid.
    exists s, (Bot.recapture f r0). split; [exact Hfind|].
    rewrite filter_sid_update by reflexivity.
    rewrite (filter_sid_unique (s_id s) r0 _ Hnd Hin Hsid).
    split; [reflexivity|]. split; [reflexivity|]. split; [reflexivity|].
    intros _. apply length_map.
  - exists s, (mkRecording (Bot.next_recording_id d.(recordings)) (s_id s) f "pending" None now None).
    split; [exact Hfind|].
    rewrite filter_app, (filter_none_true _ _ (find_none _ _ E)). simpl.
    rewrite Nat.eqb_refl.
    split; [reflexivity|]. split; [reflexivity|]. split; [reflexivity|].
    intro H. contradiction.
Qed.

Lemma recording_attempt_unique_and_replaced_witness :
  Bot.reachable Bot.sc_capture1 /\
  NoDup (map sentence_id Bot.sc_capture1.(recordings)) /\
  (forall now c pos f d', Bot.capture now c pos f Bot.sc_capture1 = Bot.Ok d' ->
     exists s r', Bot.find_active c pos Bot.sc_capture1.(sentences) = Some s /\
       filter (fun q => Nat.eqb q.(sentence_id) s.(s_id)) d'.(recordings) = [r'] /\
       r'.(file_id) = f /\ r'.(r_status) = "pending" /\
       (Bot.recording_for s.(s_id) Bot.sc_capture1.(recordings) <> None ->
        length d'.(recordings) = length Bot.sc_capture1.(recordings))).
Proof.
  split; [exact reach_sc_capture1|].
  apply (recording_attempt_unique_and_replaced Bot.sc_capture1). exact reach_sc_capture1.
Defined.

(** ** C2: a text identifier is assigned once per contributor and language *)

Lemma history_tids_map (f : sentence -> sentence) (c lang : string) (ss : list sentence) :
  keeps_keys f ->
  map text_id (Bot.history c lang (map f ss)) = map text_id (Bot.history c lang ss).
Proof.
  intro Hk. unfold Bot.history. induction ss as [|s ss IH]; simpl; [reflexivity|].
  destruct (Hk s) as (Hu & Hl & Ht & _). rewrite Hu, Hl.
  destruct (String.eqb (s_cv_user_id s) c && String.eqb (s_language s) lang); simpl;
    rewrite ?Ht, IH; reflexivity.
Qed.

Lemma history_make_batch (c0 lang0 : string) (now : nat) (cs : list Bot.candidate)
  (c lang : string) : forall next pos,
  map text_id (Bot.history c lang (Bot.make_batch c0 lang0 now next pos cs)) =
  if String.eqb c0 c && String.eqb lang0 lang then map Bot.cand_id cs else [].
Proof.
  unfold Bot.history. induction cs as [|x cs IH]; intros next pos.
  - simpl. destruct (String.eqb c0 c && String.eqb lang0 lang); reflexivity.
  - cbn [Bot.make_batch filter s_cv_user_id s_language].
    destruct (String.eqb c0 c && String.eqb lang0 lang) eqn:E; cbn [map text_id];
      rewrite IH; rewrite ?E; reflexivity.
Qed.

Lemma history_app (c lang : string) (l1 l2 : list sentence) :
  map text_id (Bot.history c lang (l1 ++ l2)) =
  map text_id (Bot.history c lang l1) ++ map text_id (Bot.history c lang l2).
Proof. unfold Bot.history. rewrite filter_app, map_app. reflexivity. Qed.

Lemma clear_text_ids (c0 c lang : string) (d : db) :
  Bot.text_ids c lang (Bot.clear c0 d) = Bot.text_ids c lang d.
Proof. apply history_tids_map, clear_keeps. Qed.

Lemma firstn_nodup {A : Type} (n : nat) (l : list A) : NoDup l -> NoDup (firstn n l).
Proof.
  intro H. rewrite <- (firstn_skipn n l) in H. exact (NoDup_app_remove_r _ _ H).
Qed.

Lemma in_firstn_in {A : Type} (n : nat) (l : list A) (x : A) : In x (firstn n l) -> In x l.
Proof. intro H. rewrite <- (firstn_skipn n l). apply in_or_app. left. exact H. Qed.

Lemma picked_ids_nodup (ids : list string) (n : nat) (cands : list Bot.candidate) :
  NoDup (map Bot.cand_id cands) ->
  NoDup (map Bot.cand_id (firstn n (filter (fun x => negb (Bot.seen ids x.(Bot.cand_id))) cands))).
Proof.
  intro H. rewrite <- firstn_map. apply firstn_nodup.
  rewrite <- (filter_map_swap (fun y => negb (Bot.seen ids y))). apply NoDup_filter, H.
Qed.

Lemma picked_ids_unseen (ids : list string) (n : nat) (cands : list Bot.candidate) (y : string) :
  In y (map Bot.cand_id (firstn n (filter (fun x => negb (Bot.seen ids x.(Bot.cand_id))) cands))) ->
  ~ In y ids.
Proof.
  rewrite <- firstn_map. intros Hy Hin.
  apply in_firstn_in in Hy.
  rewrite <- (filter_map_swap (fun y => negb (Bot.seen ids y))) in Hy.
  apply filter_In in Hy. destruct Hy as [_ Hs].
  apply negb_true_iff in Hs. unfold Bot.seen in Hs.
  assert (Ht : existsb (String.eqb y) ids = true).
  { apply existsb_exists. exists y. split; [exact Hin|apply String.eqb_refl]. }
  congruence.
Qed.

Lemma setup_text_ids (now : nat) (c0 lang0 : string) (n : nat) (cands : list Bot.candidate)
  (d d' : db) (c lang : string) :
  Bot.setup now c0 lang0 n cands d = Bot.Ok d' ->
  Bot.text_ids c lang d' =
  Bot.text_ids c lang d ++
  (if String.eqb c0 c && String.eqb lang0 lang
   then map Bot.cand_id (firstn n (Bot.unseen_candidates c0 lang0 d cands)) else []).
Proof.
  intro H. apply setup_ok_inv in H. destruct H as [_ ->].
  unfold Bot.text_ids at 1, Bot.with_sentences. cbn [sentences].
  rewrite history_app, history_make_batch. f_equal. exact (clear_text_ids c0 c lang d).
Qed.

(** Every event only appends to a contributor's list of text identifiers
    in a language, and keeps it free of repetitions. *)
Lemma step_text_ids (d d' : db) (c lang : string) :
  Bot.step d d' ->
  (exists ext, Bot.text_ids c lang d' = Bot.text_ids c lang d ++ ext) /\
  (NoDup (Bot.text_ids c lang d) -> NoDup (Bot.text_ids c lang d')).
Proof.
  intro Hs.
  destruct Hs as [u d|now c0 lang0 n cands d d' Hnd Hset|c0 d|c0 ps d
                 |now c0 pos f d d' Hcap|now ok svc d].
  - split; [exists []; rewrite app_nil_r; reflexivity|tauto].
  - rewrite (setup_text_ids _ _ _ _ _ _ _ c lang Hset).
    split; [eexists; reflexivity|].
    intro H. destruct (String.eqb c0 c && String.eqb lang0 lang) eqn:E;
      [|rewrite app_nil_r; exact H].
    apply andb_true_iff in E. destruct E as [E1 E2].
    apply String.eqb_eq in E1, E2. subst c0 lang0.
    apply NoDup_app; [exact H|apply picked_ids_nodup, Hnd|].
    intros a Ha Hb. exact (picked_ids_unseen _ _ _ a Hb Ha).
  - rewrite clear_text_ids. split; [exists []; rewrite app_nil_r; reflexivity|tauto].
  - assert (E : Bot.text_ids c lang (Bot.skip c0 ps d) = Bot.text_ids c lang d)
      by (apply history_tids_map, skip_keeps).
    rewrite E. split; [exists []; rewrite app_nil_r; reflexivity|tauto].
  - apply capture_ok_inv in Hcap. destruct Hcap as (s & _ & ->).
    split; [exists []; rewrite app_nil_r; reflexivity|tauto].
  - assert (E : Bot.text_ids c lang (fst (Bot.reconcile now ok svc d)) = Bot.text_ids c lang d).
    { destruct (reconcile_shape now ok svc d) as [->|(up & Hss & _)]; [reflexivity|].
      unfold Bot.text_ids. rewrite Hss. apply history_tids_map, mark_uploaded_keeps. }
    rewrite E. split; [exists []; rewrite app_nil_r; reflexivity|tauto].
Qed.

(** C2. In every reachable state, for every contributor and language, the
    text identifiers of all WorkItems ever created (the [sentences] rows
    of any status; no event deletes one, each only appends) are pairwise
    distinct; so an identifier already ['uploaded'] or ['skipped'] is never
    in a later active batch. The corpus service is assumed to list each
    sentence once per answer. *)
Theorem text_id_assigned_once :
  (forall d, Bot.reachable d -> forall c lang, NoDup (Bot.text_ids c lang d)) /\
  (forall d d', Bot.step d d' -> forall c lang,
     exists ext, Bot.text_ids c lang d' = Bot.text_ids c lang d ++ ext).
Proof.
  split.
  - induction 1 as [|d d' _ IH Hs]; intros c lang; [constructor|].
    apply (step_text_ids d d' c lang Hs), IH.
  - intros d d' Hs c lang. apply (step_text_ids d d' c lang Hs).
Qed.

Lemma text_id_assigned_once_witness :
  Bot.reachable Bot.sc_uploaded /\ NoDup (Bot.text_ids "cv-c" "en" Bot.sc_uploaded) /\
  Bot.step Bot.sc_capture2 Bot.sc_uploaded /\
  exists ext, Bot.text_ids "cv-c" "en" Bot.sc_uploaded = Bot.text_ids "cv-c" "en" Bot.sc_capture2 ++ ext.
Proof.
  assert (Hs : Bot.step Bot.sc_capture2 Bot.sc_uploaded) by apply Bot.StepReconcile.
  split; [exact reach_sc_uploaded|].
  split; [exact (proj1 text_id_assigned_once Bot.sc_uploaded reach_sc_uploaded "cv-c" "en")|].
  split; [exact Hs|].
  exact (proj2 text_id_assigned_once Bot.sc_capture2 Bot.sc_uploaded Hs "cv-c" "en").
Defined.

(** ** C7: position numbers of the active set *)

Section Subseq.
Variable A : Type.

Lemma subseq_refl (l : list A) : Bot.subseq l l.
Proof. induction l; constructor; assumption. Qed.

Lemma subseq_trans (l1 l2 l3 : list A) :
  Bot.subseq l1 l2 -> Bot.subseq l2 l3 -> Bot.subseq l1 l3.
Proof.
  intros H12 H23. revert l1 H12.
  induction H23 as [|x l2 l3 H IH|x l2 l3 H IH]; intros l0 H0.
  - exact H0.
  - apply Bot.subseq_skip, IH, H0.
  - inversion H0; subst.
    + apply Bot.subseq_skip, IH. assumption.
    + apply Bot.subseq_take, IH. assumption.
Qed.

Lemma subseq_in (l1 l2 : list A) (x : A) : Bot.subseq l1 l2 -> In x l1 -> In x l2.
Proof.
  induction 1 as [|y l1 l2 H IH|y l1 l2 H IH]; simpl; [tauto|auto|].
  intros [->|Hin]; [left; reflexivity|right; auto].
Qed.

Lemma subseq_nodup (l1 l2 : list A) : Bot.subseq l1 l2 -> NoDup l2 -> NoDup l1.
Proof.
  induction 1 as [|y l1 l2 H IH|y l1 l2 H IH]; intro Hnd; [constructor| |].
  - inversion Hnd; auto.
  - inversion Hnd as [|? ? Hnot Hnd']; subst. constructor; [|auto].
    intro Hin. apply Hnot. exact (subseq_in _ _ _ H Hin).
Qed.

Lemma subseq_app_nil_r (l1 l2 : list A) : Bot.subseq l1 l2 -> Bot.subseq (l1 ++ []) l2.
Proof. rewrite app_nil_r. exact (fun H => H). Qed.

End Subseq.

Lemma active_map_keeps (f : sentence -> sentence) (c : string) (ss : list sentence) :
  keeps_keys f ->
  Bot.subseq
    (map sentence_number (filter (fun s => String.eqb s.(s_cv_user_id) c && Bot.is_active s) (map f ss)))
    (map sentence_number (filter (fun s => String.eqb s.(s_cv_user_id) c && Bot.is_active s) ss)).
Proof.
  intro Hk. induction ss as [|s ss IH]; simpl; [constructor|].
  destruct (Hk s) as (Hu & _ & _ & Hn & Ha). rewrite Hu.
  destruct (String.eqb (s_cv_user_id s) c); simpl; [|exact IH].
  destruct (Bot.is_active (f s)) eqn:Ef.
  - rewrite (Ha eq_refl). simpl. rewrite Hn. apply Bot.subseq_take, IH.
  - destruct (Bot.is_active s); simpl; [apply Bot.subseq_skip|]; exact IH.
Qed.

Lemma active_clear_self (c : string) (ss : list sentence) :
  filter (fun s => String.eqb s.(s_cv_user_id) c && Bot.is_active s)
    (map (fun s => if String.eqb s.(s_cv_user_id) c && Bot.is_active s
                   then Bot.set_status "skipped" s else s) ss) = [].
Proof.
  induction ss as [|s ss IH]; simpl; [reflexivity|].
  destruct (String.eqb (s_cv_user_id s) c && Bot.is_active s) eqn:E; simpl.
  - unfold Bot.is_active at 1. simpl. rewrite andb_false_r. exact IH.
  - rewrite E. exact IH.
Qed.

Lemma active_make_batch (c0 lang : string) (now : nat) (cs : list Bot.candidate) (c : string) :
  forall next pos,
  map sentence_number
    (filter (fun s => String.eqb s.(s_cv_user_id) c && Bot.is_active s)
       (Bot.make_batch c0 lang now next pos cs)) =
  if String.eqb c0 c then seq pos (length cs) else [].
Proof.
  induction cs as [|x cs IH]; intros next pos.
  - simpl. destruct (String.eqb c0 c); reflexivity.
  - cbn [Bot.make_batch filter s_cv_user_id length seq].
    unfold Bot.is_active at 1. cbn [s_status]. rewrite andb_true_r.
    destruct (String.eqb c0 c) eqn:E; cbn [map sentence_number]; rewrite IH; rewrite ?E; reflexivity.
Qed.

Lemma setup_active_positions (now : nat) (c0 lang : string) (n : nat) (cands : list Bot.candidate)
  (d d' : db) (c : string) :
  Bot.setup now c0 lang n cands d = Bot.Ok d' ->
  Bot.active_positions c d' =
  map sentence_number
    (filter (fun s => String.eqb s.(s_cv_user_id) c && Bot.is_active s) (Bot.clear c0 d).(sentences)) ++
  (if String.eqb c0 c then seq 1 (length (firstn n (Bot.unseen_candidates c0 lang d cands))) else []).
Proof.
  intro H. apply setup_ok_inv in H. destruct H as [_ ->].
  unfold Bot.active_positions, Bot.with_sentences. cbn [sentences].
  rewrite filter_app, map_app, active_make_batch. reflexivity.
Qed.

(** C7 as stated fails: in the spec's scenario, once position 2 is
    uploaded the active set of ["cv-c"] is at positions 1 and 3, not 1..2. *)
Lemma active_positions_not_contiguous_cex :
  ~ (forall d, Bot.reachable d -> forall c,
       Permutation (Bot.active_positions c d) (seq 1 (length (Bot.active_positions c d)))).
Proof.
  intro H. pose proof (H _ reach_sc_uploaded "cv-c") as P. vm_compute in P.
  apply (Permutation_in 3) in P; [simpl in P; lia|simpl; auto].
Qed.

Lemma batch_trace_reachable (d : db) (bs : string -> nat) :
  Batches.batch_trace d bs -> Bot.reachable d.
Proof.
  induction 1 as [|u d bs _ IH|now c lang n cands d d' bs _ IH Hnd Hset|c d bs _ IH|c ps d bs _ IH
                 |now c pos f d d' bs _ IH Hcap|now ok svc d bs _ IH].
  - apply Bot.reach_init.
  - eapply Bot.reach_step; [exact IH|apply Bot.StepRegister].
  - eapply Bot.reach_step; [exact IH|exact (Bot.StepSetup _ _ _ _ _ _ _ Hnd Hset)].
  - eapply Bot.reach_step; [exact IH|apply Bot.StepClear].
  - eapply Bot.reach_step; [exact IH|apply Bot.StepSkip].
  - eapply Bot.reach_step; [exact IH|exact (Bot.StepCapture _ _ _ _ _ _ Hcap)].
  - eapply Bot.reach_step; [exact IH|apply Bot.StepReconcile].
Qed.

Lemma reachable_batch_trace (d : db) : Bot.reachable d -> exists bs, Batches.batch_trace d bs.
Proof.
  induction 1 as [|d d' _ IH Hs]; [eexists; apply Batches.bt_init|].
  destruct IH as [bs IH].
  destruct Hs as [u d|now c0 lang0 n cands d d' Hnd Hset|c0 d|c0 ps d
                 |now c0 pos f d d' Hcap|now ok svc d].
  - eexists. apply Batches.bt_register, IH.
  - eexists. exact (Batches.bt_setup _ _ _ _ _ _ _ _ IH Hnd Hset).
  - eexists. apply Batches.bt_clear, IH.
  - eexists. apply Batches.bt_skip, IH.
  - eexists. exact (Batches.bt_capture _ _ _ _ _ _ _ IH Hcap).
  - eexists. apply Batches.bt_reconcile, IH.
Qed.

Lemma batch_trace_active_positions (d : db) (bs : string -> nat) (c : string) :
  Batches.batch_trace d bs -> Bot.subseq (Bot.active_positions c d) (seq 1 (bs c)).
Proof.
  induction 1 as [|u d bs _ IH|now c0 lang n cands d d' bs _ IH Hnd Hset|c0 d bs _ IH|c0 ps d bs _ IH
                 |now c0 pos f d d' bs _ IH Hcap|now ok svc d bs _ IH].
  - constructor.
  - exact IH.
  - rewrite (setup_active_positions _ _ _ _ _ _ _ c Hset).
    destruct (String.eqb c0 c) eqn:E.
    + apply String.eqb_eq in E. subst c0.
      unfold Bot.clear, Bot.with_sentences. cbn [sentences]. rewrite active_clear_self.
      apply subseq_refl.
    + apply subseq_app_nil_r.
      eapply subseq_trans; [apply active_map_keeps, clear_keeps|exact IH].
  - eapply subseq_trans; [apply active_map_keeps, clear_keeps|exact IH].
  - eapply subseq_trans; [apply active_map_keeps, skip_keeps|exact IH].
  - apply capture_ok_inv in Hcap. destruct Hcap as (s & _ & ->). exact IH.
  - destruct (reconcile_shape now ok svc d) as [->|(up & Hss & _)]; [exact IH|].
    unfold Bot.active_positions. rewrite Hss.
    eapply subseq_trans; [apply active_map_keeps, mark_uploaded_keeps|exact IH].
Qed.

(** C7 (amended). Within a contributor's active set, the positions are
    unique, increasing and within 1..k, where k is the number of WorkItems
    the contributor's latest setup drew ([batch_trace] follows the runs of
    the bot, which are exactly its reachable states, and records k). Right
    after a setup of k WorkItems they are exactly 1..k. Uploads and skips
    remove positions without renumbering, so gaps may appear. *)
Theorem active_positions_within_last_batch :
  (forall d bs, Batches.batch_trace d bs -> forall c,
     Bot.subseq (Bot.active_positions c d) (seq 1 (bs c)) /\ NoDup (Bot.active_positions c d) /\
     Forall (fun p => 1 <= p <= bs c) (Bot.active_positions c d)) /\
  (forall d, Bot.reachable d <-> exists bs, Batches.batch_trace d bs) /\
  (forall now c lang n cands d d', Bot.setup now c lang n cands d = Bot.Ok d' ->
     Bot.active_positions c d' = seq 1 (length (firstn n (Bot.unseen_candidates c lang d cands)))).
Proof.
  split; [|split].
  - intros d bs Hb c. pose proof (batch_trace_active_positions d bs c Hb) as Hk.
    split; [exact Hk|]. split.
    + exact (subseq_nodup _ _ _ Hk (seq_NoDup (bs c) 1)).
    + apply Forall_forall. intros p Hp. apply (subseq_in _ _ _ p Hk), in_seq in Hp. lia.
  - intro d. split; [apply reachable_batch_trace|]. intros [bs Hb]. exact (batch_trace_reachable d bs Hb).
  - intros now c lang n cands d d' H.
    rewrite (setup_active_positions _ _ _ _ _ _ _ c H), String.eqb_refl.
    unfold Bot.clear, Bot.with_sentences. cbn [sentences]. rewrite active_clear_self. reflexivity.
Qed.

Lemma active_positions_within_last_batch_witness :
  Batches.batch_trace Bot.sc_uploaded Batches.sc_batches /\
  Bot.subseq (Bot.active_positions "cv-c" Bot.sc_uploaded) (seq 1 (Batches.sc_batches "cv-c")) /\
  Bot.active_positions "cv-c" Bot.sc_uploaded = [1; 3] /\ Batches.sc_batches "cv-c" = 3.
Proof.
  assert (Hb : Batches.batch_trace Bot.sc_uploaded Batches.sc_batches).
  { apply (Batches.bt_reconcile 4 true Bot.all_succeed Bot.sc_capture2).
    apply (Batches.bt_capture 3 "cv-c" 2 "file-b" Bot.sc_capture1); [|vm_compute; reflexivity].
    apply (Batches.bt_capture 2 "cv-c" 2 "file-a" Bot.sc_setup); [|vm_compute; reflexivity].
    change Batches.sc_batches with
      (fun c' => if String.eqb "cv-c" c'
                 then length (firstn 3 (Bot.unseen_candidates "cv-c" "en" empty_db Bot.cands3))
                 else (fun _ : string => 0) c').
    apply (Batches.bt_setup 1 "cv-c" "en" 3 Bot.cands3 empty_db);
      [apply Batches.bt_init|apply cands3_nodup|vm_compute; reflexivity]. }
  split; [exact Hb|]. split; [exact (proj1 (proj1 active_positions_within_last_batch _ _ Hb "cv-c"))|].
  split; vm_compute; reflexivity.
Defined.

(** * Further properties of the dashboard and the schema *)

(** ** Lists without repetitions *)

Lemma nodup_length_le (l : list string) : length (nodup string_dec l) <= length l.
Proof.
  apply NoDup_incl_length; [apply NoDup_nodup|]. intros y Hy. apply nodup_In in Hy. exact Hy.
Qed.

Lemma nodup_nonempty (x : string) (l : list string) : In x l -> 1 <= length (nodup string_dec l).
Proof.
  intro H. apply (nodup_In string_dec) in H. destruct (nodup string_dec l); [destruct H|simpl; lia].
Qed.

Lemma nodup_length_same {A : Type} (dec : forall x y : A, {x = y} + {x <> y}) (l l' : list A) :
  (forall x, In x l <-> In x l') -> length (nodup dec l) = length (nodup dec l').
Proof.
  intro H. apply Permutation_length, NoDup_Permutation; try apply NoDup_nodup.
  intro x. rewrite !nodup_In. apply H.
Qed.

Lemma filter_eqb_nodup_gen (x : string) (m : list string) :
  NoDup m -> filter (fun y => String.eqb y x) m = if in_dec string_dec x m then [x] else [].
Proof.
  induction m as [|y m IH]; intro Hnd; simpl; [reflexivity|].
  inversion Hnd as [|? ? Hnot Hnd']; subst.
  destruct (String.eqb y x) eqn:E.
  - apply String.eqb_eq in E. subst y.
    destruct (string_dec x x) as [e0|n]; [|congruence].
    rewrite IH by exact Hnd'. destruct (in_dec string_dec x m); [contradiction|reflexivity].
  - apply String.eqb_neq in E. rewrite IH by exact Hnd'.
    destruct (string_dec y x) as [e|n]; [congruence|].
    destruct (in_dec string_dec x m); reflexivity.
Qed.

Lemma filter_eqb_nodup (x : string) (l : list string) :
  filter (fun y => String.eqb y x) (nodup string_dec l) = if in_dec string_dec x l then [x] else [].
Proof.
  rewrite filter_eqb_nodup_gen by apply NoDup_nodup.
  destruct (in_dec string_dec x (nodup string_dec l)) as [H|H];
    destruct (in_dec string_dec x l) as [H'|H']; try reflexivity; exfalso;
    rewrite nodup_In in *; contradiction.
Qed.

Lemma filter_disjoint_length {A : Type} (p q : A -> bool) (l : list A) :
  (forall x, p x = true -> q x = false) ->
  length (filter p l) + length (filter q l) <= length l.
Proof.
  intro H. induction l as [|x l IH]; simpl; [lia|].
  destruct (p x) eqn:Ep; [rewrite (H x Ep)|destruct (q x)]; simpl; lia.
Qed.

(** ** [getStatsByLanguage] and [stats_by_language] *)

Lemma stats_by_language_languages (d : db) :
  map Views.ls_language (Views.stats_by_language d) = nodup string_dec (map s_language d.(sentences)).
Proof. unfold Views.stats_by_language. rewrite map_map. simpl. apply map_id. Qed.

(** [getStatsByLanguage] throws a query error, answers [[]] for a null
    [data], and against a database returns one row per distinct language of
    [sentences] (no language twice), each with at least one contributor and
    with [recordings_uploaded + recordings_pending] at most the number of
    that language's WorkItems. *)
Theorem getStatsByLanguage_one_row_per_language :
  (forall resp e, Dashboard.error resp = Some e ->
     SupabaseA.getStatsByLanguage resp = Dashboard.Thrown (Dashboard.PgExn e)) /\
  (forall resp, Dashboard.error resp = None -> Dashboard.data resp = None ->
     SupabaseA.getStatsByLanguage resp = Dashboard.Returned []) /\
  (forall d, exists rows, SupabaseA.getStatsByLanguage_on d = Dashboard.Returned rows /\
     map Views.ls_language rows = nodup string_dec (map s_language d.(sentences)) /\
     NoDup (map Views.ls_language rows) /\
     (forall r, In r rows ->
        1 <= r.(Views.contributors) /\
        r.(Views.recordings_uploaded) + r.(Views.recordings_pending) <=
          length (Views.rows_in_language r.(Views.ls_language) d.(sentences)))).
Proof.
  split; [intros resp e He; unfold SupabaseA.getStatsByLanguage; rewrite He; reflexivity|].
  split; [intros resp He Hd; unfold SupabaseA.getStatsByLanguage; rewrite He, Hd; reflexivity|].
  intro d. exists (Views.stats_by_language d). split; [reflexivity|].
  rewrite stats_by_language_languages. split; [reflexivity|]. split; [apply NoDup_nodup|].
  intros r Hr. unfold Views.stats_by_language in Hr. apply in_map_iff in Hr.
  destruct Hr as (l & <- & Hl). apply nodup_In, in_map_iff in Hl. destruct Hl as (s & Hs & Hin).
  simpl. split.
  - apply (nodup_nonempty (s_cv_user_id s)). apply in_map.
    unfold Views.rows_in_language. apply filter_In. split; [exact Hin|].
    apply String.eqb_eq, Hs.
  - unfold Views.with_status. apply filter_disjoint_length.
    intros x Hx. apply String.eqb_eq in Hx. rewrite Hx. reflexivity.
Qed.

(** ** The per-contributor views [user_stats] and [user_sentences] *)

Lemma user_stats_filter (d : db) (x : string) :
  filter (fun r => String.eqb r.(Views.us_cv_user_id) x) (Views.user_stats d) =
  if in_dec string_dec x (map s_cv_user_id d.(sentences))
  then [{| Views.us_cv_user_id := x;
           Views.total_contributions := length (uploaded_by x d.(sentences));
           Views.languages_contributed :=
             length (nodup string_dec (map s_language (uploaded_by x d.(sentences)))) |}]
  else [].
Proof.
  unfold Views.user_stats. rewrite filter_map_swap. simpl.
  rewrite filter_eqb_nodup.
  destruct (in_dec string_dec x (map s_cv_user_id d.(sentences))); [|reflexivity].
  simpl. unfold Views.count_distinct, Views.with_status, uploaded_by. rewrite filter_filter.
  reflexivity.
Qed.

Lemma user_stats_find (d : db) (x : string) :
  find (fun r => String.eqb r.(Views.us_cv_user_id) x) (Views.user_stats d) =
  if in_dec string_dec x (map s_cv_user_id d.(sentences))
  then Some {| Views.us_cv_user_id := x;
               Views.total_contributions := length (uploaded_by x d.(sentences));
               Views.languages_contributed :=
                 length (nodup string_dec (map s_language (uploaded_by x d.(sentences)))) |}
  else None.
Proof.
  assert (H : forall (l : list Views.user_stats_row) p, find p l = hd_error (filter p l)).
  { intros l p. induction l as [|y l IH]; simpl; [reflexivity|]. destruct (p y); [reflexivity|exact IH]. }
  rewrite H, user_stats_filter. destruct (in_dec _ _ _); reflexivity.
Qed.

Lemma uploaded_by_nil (d : db) (x : string) :
  ~ In x (map s_cv_user_id d.(sentences)) -> uploaded_by x d.(sentences) = [].
Proof.
  intro H. unfold uploaded_by. apply filter_none_true. intros s Hs.
  destruct (String.eqb (s_cv_user_id s) x) eqn:E; [|reflexivity].
  apply String.eqb_eq in E. exfalso. apply H. rewrite <- E. apply in_map, Hs.
Qed.

Lemma user_sentences_of (d : db) (x : string) :
  filter (fun u => String.eqb u.(Views.uss_cv_user_id) x) (Views.user_sentences d) =
  map Views.user_sentence_of (uploaded_by x d.(sentences)).
Proof.
  unfold Views.user_sentences, Views.with_status, uploaded_by.
  rewrite filter_map_swap. simpl. rewrite filter_filter. f_equal.
  apply filter_ext. intro s. apply andb_comm.
Qed.

(** The [user_stats] view has one row per contributor holding a WorkItem;
    in each, [languages_contributed] is at most [total_contributions], and
    at least 1 once [total_contributions] is. *)
Theorem user_stats_rows (d : db) :
  map Views.us_cv_user_id (Views.user_stats d) = nodup string_dec (map s_cv_user_id d.(sentences)) /\
  forall r, In r (Views.user_stats d) ->
    r.(Views.languages_contributed) <= r.(Views.total_contributions) /\
    (1 <= r.(Views.total_contributions) -> 1 <= r.(Views.languages_contributed)).
Proof.
  split; [unfold Views.user_stats; rewrite map_map; simpl; apply map_id|].
  intros r Hr. unfold Views.user_stats in Hr. apply in_map_iff in Hr.
  destruct Hr as (x & <- & _). simpl. unfold Views.count_distinct. split.
  - rewrite <- (length_map s_language). apply nodup_length_le.
  - destruct (Views.with_status "uploaded" _) as [|s l]; intro H; [simpl in H; lia|].
    apply (nodup_nonempty (s_language s)). apply (in_map s_language). left. reflexivity.
Qed.

(** What [getUserSentences(x)] lists agrees with what [user_stats] reports
    for [x] (the first row, or zeros when there is none, as [getUserStats]
    reads it): as many sentences as [total_contributions], in as many
    distinct languages as [languages_contributed]. *)
Theorem user_sentences_match_user_stats (d : db) (x : string) :
  exists l, Dashboard.getUserSentences None d x = Dashboard.Returned l /\
    length l = match find (fun r => String.eqb r.(Views.us_cv_user_id) x) (Views.user_stats d) with
               | Some r => r.(Views.total_contributions) | None => 0 end /\
    length (nodup string_dec (map Views.uss_language l)) =
      match find (fun r => String.eqb r.(Views.us_cv_user_id) x) (Views.user_stats d) with
      | Some r => r.(Views.languages_contributed) | None => 0 end.
Proof.
  eexists; split; [reflexivity|].
  rewrite user_sentences_of, user_stats_find.
  pose proof (sort_desc_perm _ Views.uss_uploaded_at
               (map Views.user_sentence_of (uploaded_by x d.(sentences)))) as P.
  split.
  - rewrite (Permutation_length P), length_map.
    destruct (in_dec _ _ _) as [_|n]; [reflexivity|]. rewrite (uploaded_by_nil d x n). reflexivity.
  - rewrite (nodup_length_same string_dec _ (map s_language (uploaded_by x d.(sentences)))).
    + destruct (in_dec _ _ _) as [_|n]; [reflexivity|]. rewrite (uploaded_by_nil d x n). reflexivity.
    + intro y. rewrite <- (map_map Views.user_sentence_of Views.uss_language). simpl.
      split; intro H; [apply (Permutation_in _ (Permutation_map _ P)) in H|
                       apply (Permutation_in _ (Permutation_map _ (Permutation_sym P)))];
        rewrite ?map_map in *; exact H.
Qed.

(** ** Sums over the [GROUP BY language] rows *)

Lemma fold_left_sum {A : Type} (f : A -> nat) (l : list A) (a : nat) :
  fold_left (fun sum s => sum + f s) l a = a + list_sum (map f l).
Proof. revert a. induction l as [|y l IH]; intro a; simpl; [lia|]. rewrite IH. lia. Qed.

Lemma list_sum_map_add {A : Type} (f g : A -> nat) (l : list A) :
  list_sum (map (fun x => f x + g x) l) = list_sum (map f l) + list_sum (map g l).
Proof. induction l as [|y l IH]; simpl; [reflexivity|]. rewrite IH. lia. Qed.

Lemma list_sum_zero {A : Type} (l : list A) : list_sum (map (fun _ => 0) l) = 0.
Proof. induction l as [|y l IH]; simpl; [reflexivity|exact IH]. Qed.

Lemma list_sum_indicator (x : string) (b : bool) (L : list string) :
  NoDup L ->
  list_sum (map (fun l => if String.eqb x l && b then 1 else 0) L) =
  if (if in_dec string_dec x L then b else false) then 1 else 0.
Proof.
  destruct b.
  - induction L as [|l L IH]; intro Hnd; simpl; [reflexivity|].
    inversion Hnd as [|? ? Hnot Hnd']; subst. rewrite (IH Hnd'), andb_true_r.
    destruct (String.eqb x l) eqn:E.
    + apply String.eqb_eq in E. subst l.
      destruct (string_dec x x) as [e0|n]; [|congruence].
      destruct (in_dec string_dec x L); [contradiction|reflexivity].
    + apply String.eqb_neq in E. destruct (string_dec l x) as [e0|n]; [congruence|].
      destruct (in_dec string_dec x L); reflexivity.
  - intros _. rewrite (map_ext _ (fun _ => 0)) by (intro l; rewrite andb_false_r; reflexivity).
    rewrite list_sum_zero. destruct (in_dec string_dec x L); reflexivity.
Qed.

Lemma sum_over_languages (P : sentence -> bool) (L : list string) (ss : list sentence) :
  NoDup L ->
  list_sum (map (fun l => length (filter P (Views.rows_in_language l ss))) L) =
  length (filter (fun s => if in_dec string_dec s.(s_language) L then P s else false) ss).
Proof.
  intro Hnd. induction ss as [|s ss IH].
  - apply list_sum_zero.
  - rewrite (map_ext _ (fun l => (if String.eqb s.(s_language) l && P s then 1 else 0) +
                                  length (filter P (Views.rows_in_language l ss)))).
    + rewrite list_sum_map_add, IH, list_sum_indicator by exact Hnd. simpl.
      destruct (if in_dec string_dec (s_language s) L then P s else false); reflexivity.
    + intro l. unfold Views.rows_in_language. simpl.
      destruct (String.eqb (s_language s) l); simpl; [destruct (P s)|]; reflexivity.
Qed.

Lemma filter_in_own_languages (P : sentence -> bool) (ss : list sentence) (L : list string) :
  (forall s, In s ss -> In s.(s_language) L) ->
  filter (fun s => if in_dec string_dec s.(s_language) L then P s else false) ss = filter P ss.
Proof.
  intro H. apply filter_ext_in. intros s Hs.
  destruct (in_dec string_dec (s_language s) L) as [_|n]; [reflexivity|].
  exfalso. exact (n (H s Hs)).
Qed.

(** ** [getTotalStats] of lines 92-112 *)

(** [getTotalStats] (lines 92-112) returns the [public_users] count (0
    when the count is null) and, as [totalRecordings], the number of
    [sentences] rows with status ['uploaded'] (the [recordings_uploaded]
    of all languages added up). An error of the [public_users] query is
    thrown in preference to one of the [stats_by_language] query. *)
Theorem getTotalStats_sums_uploaded_workitems :
  (forall n d, SupabaseA.getTotalStats_on n d =
     Dashboard.Returned
       {| Dashboard.totalContributors := n;
          Dashboard.totalRecordings :=
            length (filter (fun s => String.eqb s.(s_status) "uploaded") d.(sentences)) |}) /\
  (forall ur sr e, Dashboard.error ur = Some e ->
     SupabaseA.getTotalStats ur sr = Dashboard.Thrown (Dashboard.PgExn e)) /\
  (forall ur sr, Dashboard.error ur = None -> Dashboard.error sr = None ->
     Dashboard.count ur = None -> Dashboard.data sr = None ->
     SupabaseA.getTotalStats ur sr =
       Dashboard.Returned {| Dashboard.totalContributors := 0; Dashboard.totalRecordings := 0 |}).
Proof.
  split; [|split].
  - intros n d. unfold SupabaseA.getTotalStats_on, SupabaseA.getTotalStats. simpl.
    rewrite fold_left_sum. unfold Views.stats_by_language. rewrite map_map. simpl.
    unfold Views.with_status.
    rewrite (sum_over_languages (fun s => String.eqb s.(s_status) "uploaded")) by apply NoDup_nodup.
    rewrite filter_in_own_languages; [reflexivity|].
    intros s Hs. apply nodup_In, in_map, Hs.
  - intros ur sr e He. unfold SupabaseA.getTotalStats. rewrite He. reflexivity.
  - intros ur sr Hu Hs Hc Hd. unfold SupabaseA.getTotalStats. rewrite Hu, Hs, Hc, Hd. reflexivity.
Qed.

Lemma getTotalStats_sums_uploaded_workitems_witness :
  Dashboard.error (Dashboard.mkResponse (A := list Anon.row) None None None) = None /\
  SupabaseA.getTotalStats (Dashboard.mkResponse None None None) (Dashboard.mkResponse None None None) =
    Dashboard.Returned {| Dashboard.totalContributors := 0; Dashboard.totalRecordings := 0 |}.
Proof.
  split; [reflexivity|].
  apply (proj2 (proj2 getTotalStats_sums_uploaded_workitems)); reflexivity.
Defined.

(** ** The [getUserStats] variants *)

Lemma getUserSentences_on (d : db) (x : string) :
  Dashboard.getUserSentences None d x =
  Dashboard.Returned (Dashboard.sort_desc Views.uss_uploaded_at
                        (map Views.user_sentence_of (uploaded_by x d.(sentences)))).
Proof. unfold Dashboard.getUserSentences. rewrite user_sentences_of. reflexivity. Qed.

Lemma search_getUserStats_on (pub : list Dashboard.public_user) (f : SupabaseA.search_field)
  (v : string) (d : db) (u : Dashboard.public_user) :
  filter (fun u => String.eqb (SupabaseA.field_value f u) v) pub = [u] ->
  SupabaseA.getUserStats_on pub f v d =
  Dashboard.Returned (Some
    {| Dashboard.st_cv_user_id := u.(Dashboard.pu_cv_user_id);
       Dashboard.st_username := u.(Dashboard.pu_username);
       Dashboard.st_joined_at := u.(Dashboard.pu_created_at);
       Dashboard.st_total_contributions := length (uploaded_by u.(Dashboard.pu_cv_user_id) d.(sentences));
       Dashboard.st_languages_contributed :=
         length (nodup string_dec (map s_language (uploaded_by u.(Dashboard.pu_cv_user_id) d.(sentences)))) |}).
Proof.
  intro H. unfold SupabaseA.getUserStats_on, Dashboard.getUserStats. rewrite H. simpl.
  rewrite user_stats_filter.
  destruct (in_dec string_dec (Dashboard.pu_cv_user_id u) (map s_cv_user_id d.(sentences))) as [i|n];
    [reflexivity|].
  rewrite (uploaded_by_nil d _ n). reflexivity.
Qed.

(** [getUserStats(searchValue, searchField)] (lines 49-79), for any rows of
    [public_users]: [null] exactly when the search field matches no row or
    several rows (so a username two users share finds nobody); when it
    matches one row, the counts are that user's uploaded WorkItems and their
    distinct languages, zero when they have none. *)
Theorem getUserStats_null_unless_one_match (pub : list Dashboard.public_user)
  (f : SupabaseA.search_field) (v : string) (d : db) :
  (SupabaseA.getUserStats_on pub f v d = Dashboard.Returned None <->
     length (filter (fun u => String.eqb (SupabaseA.field_value f u) v) pub) <> 1) /\
  (forall u, filter (fun u => String.eqb (SupabaseA.field_value f u) v) pub = [u] ->
     SupabaseA.getUserStats_on pub f v d =
     Dashboard.Returned (Some
       {| Dashboard.st_cv_user_id := u.(Dashboard.pu_cv_user_id);
          Dashboard.st_username := u.(Dashboard.pu_username);
          Dashboard.st_joined_at := u.(Dashboard.pu_created_at);
          Dashboard.st_total_contributions :=
            length (uploaded_by u.(Dashboard.pu_cv_user_id) d.(sentences));
          Dashboard.st_languages_contributed :=
            length (nodup string_dec (map s_language (uploaded_by u.(Dashboard.pu_cv_user_id) d.(sentences)))) |})).
Proof.
  split; [|exact (search_getUserStats_on pub f v d)].
  destruct (filter (fun u => String.eqb (SupabaseA.field_value f u) v) pub) as [|u [|u' rest]] eqn:E.
  - unfold SupabaseA.getUserStats_on, Dashboard.getUserStats. rewrite E. simpl. split; [intros _; discriminate|reflexivity].
  - rewrite (search_getUserStats_on pub f v d u E). simpl. split; [discriminate|congruence].
  - unfold SupabaseA.getUserStats_on, Dashboard.getUserStats. rewrite E. simpl. split; [intros _; discriminate|reflexivity].
Qed.


Lemma getUserStats_null_unless_one_match_witness :
  SupabaseA.getUserStats_on two_alices SupabaseA.by_username "alice" Scenarios.totals_db =
    Dashboard.Returned None /\
  filter (fun u => String.eqb (SupabaseA.field_value SupabaseA.by_cv_user_id u) "cv-a1") two_alices =
    [Dashboard.mkPublicUser "cv-a1" "alice" 1] /\
  SupabaseA.getUserStats_on two_alices SupabaseA.by_cv_user_id "cv-a1" Scenarios.totals_db =
    Dashboard.Returned (Some
      {| Dashboard.st_cv_user_id := "cv-a1"; Dashboard.st_username := "alice";
         Dashboard.st_joined_at := 1;
         Dashboard.st_total_contributions := length (uploaded_by "cv-a1" Scenarios.totals_db.(sentences));
         Dashboard.st_languages_contributed :=
           length (nodup string_dec (map s_language (uploaded_by "cv-a1" Scenarios.totals_db.(sentences)))) |}).
Proof.
  split.
  - apply (proj2 (proj1 (getUserStats_null_unless_one_match two_alices SupabaseA.by_username "alice"
                            Scenarios.totals_db))).
    simpl. discriminate.
  - split; [reflexivity|].
    apply (proj2 (getUserStats_null_unless_one_match two_alices SupabaseA.by_cv_user_id "cv-a1"
                    Scenarios.totals_db) (Dashboard.mkPublicUser "cv-a1" "alice" 1)).
    reflexivity.
Defined.

Lemma supabaseB_getUserStats_on (d : db) (x : string) (u : user) :
  filter (fun u => String.eqb u.(u_cv_user_id) x) d.(users) = [u] ->
  SupabaseB.getUserStats_on d x =
  Dashboard.Returned (Some
    {| SupabaseB.b_cv_user_id := u.(u_cv_user_id); SupabaseB.b_username := u.(username);
       SupabaseB.b_joined_at := u.(u_created_at); SupabaseB.b_current_language := u.(current_language);
       SupabaseB.b_total_contributions := length (uploaded_by x d.(sentences));
       SupabaseB.b_languages_contributed :=
         length (nodup string_dec (map s_language (uploaded_by x d.(sentences)))) |}).
Proof.
  intro H. unfold SupabaseB.getUserStats_on, SupabaseB.getUserStats. rewrite H, user_stats_filter. simpl.
  destruct (in_dec string_dec x (map s_cv_user_id d.(sentences))) as [i|n]; [reflexivity|].
  rewrite (uploaded_by_nil d x n). reflexivity.
Qed.

(** [getUserStats(cvUserId)] of lines 159-187 never throws against the
    database; it is [null] exactly when [users] holds no row or several rows
    with that [cv_user_id]; otherwise it reports that row's username, join
    date and current language with the contributor's number of uploaded
    WorkItems and of their distinct languages (zeros when the [.single()]
    on [user_stats] finds no row). *)
Theorem getUserStats_users_table (d : db) (x : string) :
  (forall e, SupabaseB.getUserStats_on d x <> Dashboard.Thrown e) /\
  (SupabaseB.getUserStats_on d x = Dashboard.Returned None <->
     length (filter (fun u => String.eqb u.(u_cv_user_id) x) d.(users)) <> 1) /\
  (forall u, filter (fun u => String.eqb u.(u_cv_user_id) x) d.(users) = [u] ->
     SupabaseB.getUserStats_on d x =
     Dashboard.Returned (Some
       {| SupabaseB.b_cv_user_id := u.(u_cv_user_id); SupabaseB.b_username := u.(username);
          SupabaseB.b_joined_at := u.(u_created_at); SupabaseB.b_current_language := u.(current_language);
          SupabaseB.b_total_contributions := length (uploaded_by x d.(sentences));
          SupabaseB.b_languages_contributed :=
            length (nodup string_dec (map s_language (uploaded_by x d.(sentences)))) |})).
Proof.
  split; [|split; [|exact (supabaseB_getUserStats_on d x)]].
  - intro e. destruct (filter (fun u => String.eqb u.(u_cv_user_id) x) d.(users)) as [|u [|u' rest]] eqn:E.
    + unfold SupabaseB.getUserStats_on, SupabaseB.getUserStats. rewrite E. simpl. discriminate.
    + rewrite (supabaseB_getUserStats_on d x u E). discriminate.
    + unfold SupabaseB.getUserStats_on, SupabaseB.getUserStats. rewrite E. simpl. discriminate.
  - destruct (filter (fun u => String.eqb u.(u_cv_user_id) x) d.(users)) as [|u [|u' rest]] eqn:E.
    + unfold SupabaseB.getUserStats_on, SupabaseB.getUserStats. rewrite E. simpl.
      split; [intros _; discriminate|reflexivity].
    + rewrite (supabaseB_getUserStats_on d x u E). simpl. split; [discriminate|congruence].
    + unfold SupabaseB.getUserStats_on, SupabaseB.getUserStats. rewrite E. simpl.
      split; [intros _; discriminate|reflexivity].
Qed.

Lemma getUserStats_users_table_witness :
  filter (fun u => String.eqb u.(u_cv_user_id) "cv-alice") Scenarios.totals_db.(users) = [Anon.alice "tok"] /\
  SupabaseB.getUserStats_on Scenarios.totals_db "cv-alice" =
  Dashboard.Returned (Some
    {| SupabaseB.b_cv_user_id := "cv-alice"; SupabaseB.b_username := "alice";
       SupabaseB.b_joined_at := 1; SupabaseB.b_current_language := Some "es";
       SupabaseB.b_total_contributions := length (uploaded_by "cv-alice" Scenarios.totals_db.(sentences));
       SupabaseB.b_languages_contributed :=
         length (nodup string_dec (map s_language (uploaded_by "cv-alice" Scenarios.totals_db.(sentences)))) |}).
Proof.
  split; [reflexivity|].
  apply (proj2 (proj2 (getUserStats_users_table Scenarios.totals_db "cv-alice")) (Anon.alice "tok")).
  reflexivity.
Defined.


Lemma supabaseC_getUserStats_on (d : db) (x : string) :
  SupabaseC.getUserStats_on d x =
  Dashboard.Returned (if in_dec string_dec x (map s_cv_user_id d.(sentences))
                      then Some (Anon.user_stats_out (user_stats_of d x)) else None).
Proof.
  unfold SupabaseC.getUserStats_on, SupabaseC.getUserStats. rewrite user_stats_filter.
  destruct (in_dec string_dec x (map s_cv_user_id d.(sentences))); reflexivity.
Qed.

(** [getUserStats(cvUserId)] of part_001 (lines 131-143) never throws
    against the database and is [null] exactly when the contributor holds no
    WorkItem (a registered user without one is "not found"). Otherwise it
    returns the [user_stats] row itself, whose only columns are
    [cv_user_id], [total_contributions] (the uploaded WorkItems) and
    [languages_contributed]: the [username], [joined_at], [current_language]
    and [recordings_uploaded] its [UserStats] type declares are absent. *)
Theorem getUserStats_view_row (d : db) (x : string) :
  (forall e, SupabaseC.getUserStats_on d x <> Dashboard.Thrown e) /\
  (SupabaseC.getUserStats_on d x = Dashboard.Returned None <-> ~ In x (map s_cv_user_id d.(sentences))) /\
  (In x (map s_cv_user_id d.(sentences)) ->
     exists r, SupabaseC.getUserStats_on d x = Dashboard.Returned (Some r) /\
       map fst r = ["cv_user_id"; "total_contributions"; "languages_contributed"] /\
       In ("total_contributions", Anon.VNat (length (uploaded_by x d.(sentences)))) r).
Proof.
  rewrite supabaseC_getUserStats_on.
  destruct (in_dec string_dec x (map s_cv_user_id d.(sentences))) as [i|n].
  - split; [discriminate|]. split; [split; [discriminate|tauto]|].
    intros _. eexists; split; [reflexivity|]. split; [reflexivity|]. simpl. auto.
  - split; [discriminate|]. split; [tauto|]. intro H. contradiction.
Qed.

Lemma getUserStats_view_row_witness :
  In "cv-alice" (map s_cv_user_id Scenarios.totals_db.(sentences)) /\
  exists r, SupabaseC.getUserStats_on Scenarios.totals_db "cv-alice" = Dashboard.Returned (Some r) /\
    map fst r = ["cv_user_id"; "total_contributions"; "languages_contributed"] /\
    In ("total_contributions", Anon.VNat (length (uploaded_by "cv-alice" Scenarios.totals_db.(sentences)))) r.
Proof.
  assert (H : In "cv-alice" (map s_cv_user_id Scenarios.totals_db.(sentences))) by (simpl; auto).
  split; [exact H|].
  exact (proj2 (proj2 (getUserStats_view_row Scenarios.totals_db "cv-alice")) H).
Defined.

(** ** The UserStats page *)

(** The UserStats page (part_000, [fetchUserData] lines 19-39 and the
    returns of lines 44-74) after one fetch for a non-empty [cvUserId],
    whatever the two calls return and whichever rejection settles first:
    when a call rejects and every rejection is a Supabase error, the page
    shows the fixed text 'Failed to load stats', never the error's own
    message nor the stats. When neither call rejects, it shows "not found"
    for a [null] from [getUserStats] and otherwise the stats with the
    fetched sentences. *)
Theorem userStats_supabase_error_text (tm : string) (first : bool)
  (gS : string -> Dashboard.js (option Anon.row))
  (gSe : string -> Dashboard.js (list Views.user_sentence)) (x : string) :
  x <> "" ->
  ((exists e, gS x = Dashboard.Thrown e \/ gSe x = Dashboard.Thrown e) ->
   (forall e, gS x = Dashboard.Thrown e \/ gSe x = Dashboard.Thrown e -> exists p, e = Dashboard.PgExn p) ->
   UserStatsPage.render
     (UserStatsPage.fetchUserData first (UserStatsPage.error_text tm) (Some x) gS gSe UserStatsPage.initial) =
   UserStatsPage.ErrorView "Failed to load stats") /\
  (forall l, gS x = Dashboard.Returned None -> gSe x = Dashboard.Returned l ->
     UserStatsPage.render
       (UserStatsPage.fetchUserData first (UserStatsPage.error_text tm) (Some x) gS gSe UserStatsPage.initial) =
     UserStatsPage.NotFoundView) /\
  (forall r l, gS x = Dashboard.Returned (Some r) -> gSe x = Dashboard.Returned l ->
     UserStatsPage.render
       (UserStatsPage.fetchUserData first (UserStatsPage.error_text tm) (Some x) gS gSe UserStatsPage.initial) =
     UserStatsPage.StatsView r l).
Proof.
  intro Hx. apply String.eqb_neq in Hx.
  unfold UserStatsPage.fetchUserData, UserStatsPage.render. rewrite Hx.
  split; [|split].
  - intros (e & He) Hpg.
    destruct (gS x) as [a|e1] eqn:E1; destruct (gSe x) as [b|e2] eqn:E2.
    + destruct He as [H|H]; discriminate.
    + destruct (Hpg e2 (or_intror eq_refl)) as [p ->]. reflexivity.
    + destruct (Hpg e1 (or_introl eq_refl)) as [p ->]. reflexivity.
    + destruct (Hpg e1 (or_introl eq_refl)) as [p1 ->].
      destruct (Hpg e2 (or_intror eq_refl)) as [p2 ->]. destruct first; reflexivity.
  - intros l Hs Hl. rewrite Hs, Hl. reflexivity.
  - intros r l Hs Hl. rewrite Hs, Hl. reflexivity.
Qed.

Lemma userStats_supabase_error_text_witness :
  "cv-alice" <> "" /\
  UserStatsPage.render
    (UserStatsPage.fetchUserData true (UserStatsPage.error_text "") (Some "cv-alice") failing_stats
       no_sentences UserStatsPage.initial) =
  UserStatsPage.ErrorView "Failed to load stats".
Proof.
  assert (Hx : "cv-alice" <> "") by discriminate.
  split; [exact Hx|].
  apply (proj1 (userStats_supabase_error_text "" true failing_stats no_sentences "cv-alice" Hx)).
  - exists (Dashboard.PgExn (Dashboard.mkPgError "PGRST301" "JWT expired")). left. reflexivity.
  - intros e [H|H]; [|discriminate]. injection H as <-. eexists. reflexivity.
Defined.

(** The UserStats page against the database (part_001's [getUserStats] and
    [getUserSentences]): without a [cvUserId], or with an empty one, it
    shows "Loading" for ever; otherwise it shows "not found" exactly when
    the contributor holds no WorkItem, and else the contributor's stats row
    (with the uploaded-WorkItem count) and every uploaded WorkItem of theirs,
    newest first. *)
Theorem userStats_page_on_db (msg : Dashboard.exn -> string) (d : db) (x : string) :
  UserStatsPage.page_on msg d None = UserStatsPage.LoadingView /\
  UserStatsPage.page_on msg d (Some "") = UserStatsPage.LoadingView /\
  (x <> "" ->
     (UserStatsPage.page_on msg d (Some x) = UserStatsPage.NotFoundView <->
        ~ In x (map s_cv_user_id d.(sentences))) /\
     (In x (map s_cv_user_id d.(sentences)) ->
        exists r l, UserStatsPage.page_on msg d (Some x) = UserStatsPage.StatsView r l /\
          In ("total_contributions", Anon.VNat (length (uploaded_by x d.(sentences)))) r /\
          Permutation l (map Views.user_sentence_of (uploaded_by x d.(sentences))) /\
          Sorted (fun a b => b.(Views.uss_uploaded_at) <= a.(Views.uss_uploaded_at)) l)).
Proof.
  split; [reflexivity|]. split; [reflexivity|].
  intro Hx. apply String.eqb_neq in Hx.
  unfold UserStatsPage.page_on, UserStatsPage.fetchUserData, UserStatsPage.render.
  rewrite Hx, supabaseC_getUserStats_on, getUserSentences_on.
  destruct (in_dec string_dec x (map s_cv_user_id d.(sentences))) as [i|n]; simpl.
  - split; [split; [discriminate|tauto]|].
    intros _. do 2 eexists. split; [reflexivity|]. split; [simpl; auto|]. split.
    + apply sort_desc_perm.
    + apply (sort_desc_sorted _ Views.uss_uploaded_at).
  - split; [tauto|]. intro H. contradiction.
Qed.

Lemma userStats_page_on_db_witness :
  "cv-alice" <> "" /\ In "cv-alice" (map s_cv_user_id Scenarios.totals_db.(sentences)) /\
  exists r l, UserStatsPage.page_on error_message Scenarios.totals_db (Some "cv-alice") =
                UserStatsPage.StatsView r l /\
    In ("total_contributions", Anon.VNat (length (uploaded_by "cv-alice" Scenarios.totals_db.(sentences)))) r /\
    Permutation l (map Views.user_sentence_of (uploaded_by "cv-alice" Scenarios.totals_db.(sentences))) /\
    Sorted (fun a b => b.(Views.uss_uploaded_at) <= a.(Views.uss_uploaded_at)) l.
Proof.
  assert (Hx : "cv-alice" <> "") by discriminate.
  assert (Hi : In "cv-alice" (map s_cv_user_id Scenarios.totals_db.(sentences))) by (simpl; auto).
  split; [exact Hx|]. split; [exact Hi|].
  exact (proj2 (proj2 (proj2 (userStats_page_on_db error_message Scenarios.totals_db "cv-alice")) Hx) Hi).
Defined.

(** ** [isUUID] *)

Lemma and_then_some (o : option string) (f : string -> option string) (t : string) :
  SupabaseA.and_then o f = Some t <-> exists m, o = Some m /\ f m = Some t.
Proof.
  destruct o as [m|]; simpl; split.
  - intro H. exists m. auto.
  - intros (m' & E & H). congruence.
  - discriminate.
  - intros (m' & E & _). discriminate.
Qed.

Lemma hex_run_spec (k : nat) (s r : string) :
  SupabaseA.hex_run k s = Some r <->
  exists p, s = (p ++ r)%string /\ String.length p = k /\ SupabaseA.all_hex p = true.
Proof.
  revert s. induction k as [|k IH]; intro s; simpl.
  - split.
    + intro H. injection H as <-. exists EmptyString. auto.
    + intros ([|c p] & -> & Hl & _); [reflexivity|discriminate].
  - split.
    + destruct s as [|c rest]; [discriminate|].
      destruct (SupabaseA.is_hex_digit c) eqn:Hc; [|discriminate].
      intro H. apply IH in H. destruct H as (p & -> & Hl & Ha).
      exists (String c p). simpl. rewrite Hc, Ha. auto.
    + intros ([|c p] & -> & Hl & Ha); [discriminate|].
      simpl in Hl, Ha |- *. apply andb_true_iff in Ha. destruct Ha as [Hc Ha].
      rewrite Hc. apply IH. exists p. auto.
Qed.

Lemma dash_spec (s r : string) : SupabaseA.dash s = Some r <-> s = String "-" r.
Proof.
  destruct s as [|c rest]; simpl; split; try discriminate.
  - destruct (Ascii.eqb c "-") eqn:E; [|discriminate].
    apply Ascii.eqb_eq in E. intro H. injection H as <-. subst. reflexivity.
  - intro H. injection H as -> ->. reflexivity.
Qed.

Lemma dash_hex_spec (k : nat) (s t : string) :
  SupabaseA.and_then (SupabaseA.dash s) (SupabaseA.hex_run k) = Some t <->
  exists p, s = String "-" (p ++ t) /\ String.length p = k /\ SupabaseA.all_hex p = true.
Proof.
  rewrite and_then_some. split.
  - intros (m & Hd & Hh). apply dash_spec in Hd. apply hex_run_spec in Hh.
    destruct Hh as (p & -> & Hl & Ha). exists p. auto.
  - intros (p & -> & Hl & Ha). exists (p ++ t)%string. split; [reflexivity|].
    apply hex_run_spec. exists p. auto.
Qed.

Lemma isUUID_true (s : string) :
  SupabaseA.isUUID s = true <->
  SupabaseA.and_then (SupabaseA.hex_run 8 s) (SupabaseA.dash_groups [4; 4; 4; 12]) = Some EmptyString.
Proof.
  unfold SupabaseA.isUUID.
  destruct (SupabaseA.and_then (SupabaseA.hex_run 8 s) (SupabaseA.dash_groups [4; 4; 4; 12]))
    as [[|c r]|]; split; congruence.
Qed.

Lemma append_empty_r (s : string) : (s ++ "")%string = s.
Proof. induction s as [|c s IH]; simpl; [reflexivity|rewrite IH; reflexivity]. Qed.

(** [isUUID] (lines 45-47) accepts exactly the strings made of five runs of
    hexadecimal digits (either case) of lengths 8, 4, 4, 4 and 12, joined
    by single hyphens, so every accepted string is 36 characters long. *)
Theorem isUUID_shape (s : string) :
  SupabaseA.isUUID s = true <->
  exists a b c e f,
    s = (a ++ "-" ++ b ++ "-" ++ c ++ "-" ++ e ++ "-" ++ f)%string /\
    String.length a = 8 /\ String.length b = 4 /\ String.length c = 4 /\
    String.length e = 4 /\ String.length f = 12 /\
    forallb SupabaseA.all_hex [a; b; c; e; f] = true.
Proof.
  rewrite isUUID_true. rewrite and_then_some. cbn [SupabaseA.dash_groups]. split.
  - intros (m0 & H0 & H).
    apply and_then_some in H. destruct H as (m1 & H1 & H). apply dash_hex_spec in H1.
    apply and_then_some in H. destruct H as (m2 & H2 & H). apply dash_hex_spec in H2.
    apply and_then_some in H. destruct H as (m3 & H3 & H). apply dash_hex_spec in H3.
    apply and_then_some in H. destruct H as (m4 & H4 & H). apply dash_hex_spec in H4.
    injection H as ->.
    apply hex_run_spec in H0. destruct H0 as (a & -> & La & Ha).
    destruct H1 as (b & -> & Lb & Hb). destruct H2 as (c & -> & Lc & Hc).
    destruct H3 as (e & -> & Le & He). destruct H4 as (f & -> & Lf & Hf).
    exists a, b, c, e, f. rewrite append_empty_r. simpl. rewrite Ha, Hb, Hc, He, Hf.
    repeat split; assumption.
  - intros (a & b & c & e & f & -> & La & Lb & Lc & Le & Lf & H). simpl in H.
    repeat rewrite andb_true_iff in H. destruct H as (Ha & Hb & Hc & He & Hf & _).
    exists (String "-" (b ++ String "-" (c ++ String "-" (e ++ String "-" f))))%string.
    split; [apply hex_run_spec; exists a; auto|].
    apply and_then_some. exists (String "-" (c ++ String "-" (e ++ String "-" f)))%string.
    split; [apply dash_hex_spec; exists b; auto|].
    apply and_then_some. exists (String "-" (e ++ String "-" f))%string.
    split; [apply dash_hex_spec; exists c; auto|].
    apply and_then_some. exists (String "-" f)%string.
    split; [apply dash_hex_spec; exists e; auto|].
    apply and_then_some. exists EmptyString.
    split; [apply dash_hex_spec; exists f; rewrite append_empty_r; auto|reflexivity].
Qed.

Lemma to_upper_hex (c : Ascii.ascii) :
  SupabaseA.is_hex_digit (SupabaseA.to_upper c) = SupabaseA.is_hex_digit c.
Proof. destruct c as [[|] [|] [|] [|] [|] [|] [|] [|]]; reflexivity. Qed.

Lemma to_upper_dash (c : Ascii.ascii) : Ascii.eqb (SupabaseA.to_upper c) "-" = Ascii.eqb c "-".
Proof. destruct c as [[|] [|] [|] [|] [|] [|] [|] [|]]; reflexivity. Qed.

Lemma hex_run_upper (k : nat) (s : string) :
  SupabaseA.hex_run k (SupabaseA.upper s) = option_map SupabaseA.upper (SupabaseA.hex_run k s).
Proof.
  revert s. induction k as [|k IH]; intro s; [reflexivity|].
  destruct s as [|c rest]; [reflexivity|]. simpl. rewrite to_upper_hex.
  destruct (SupabaseA.is_hex_digit c); [apply IH|reflexivity].
Qed.

Lemma dash_upper (s : string) :
  SupabaseA.dash (SupabaseA.upper s) = option_map SupabaseA.upper (SupabaseA.dash s).
Proof.
  destruct s as [|c rest]; [reflexivity|]. simpl. rewrite to_upper_dash.
  destruct (Ascii.eqb c "-"); reflexivity.
Qed.

Lemma and_then_upper (o : option string) (f g : string -> option string) :
  (forall s, f (SupabaseA.upper s) = option_map SupabaseA.upper (g s)) ->
  SupabaseA.and_then (option_map SupabaseA.upper o) f = option_map SupabaseA.upper (SupabaseA.and_then o g).
Proof. intro H. destruct o; simpl; [apply H|reflexivity]. Qed.

Lemma dash_groups_upper (ks : list nat) (s : string) :
  SupabaseA.dash_groups ks (SupabaseA.upper s) =
  option_map SupabaseA.upper (SupabaseA.dash_groups ks s).
Proof.
  revert s. induction ks as [|k ks IH]; intro s; [reflexivity|]. simpl.
  rewrite dash_upper. rewrite (and_then_upper _ _ (SupabaseA.hex_run k)) by apply hex_run_upper.
  apply and_then_upper, IH.
Qed.

(** [isUUID] (lines 45-47) ignores case: upper-casing the ASCII letters of
    a string never changes its answer. *)
Theorem isUUID_case_insensitive (s : string) :
  SupabaseA.isUUID (SupabaseA.upper s) = SupabaseA.isUUID s.
Proof.
  unfold SupabaseA.isUUID. rewrite hex_run_upper.
  rewrite (and_then_upper _ _ (SupabaseA.dash_groups [4; 4; 4; 12])) by apply dash_groups_upper.
  destruct (SupabaseA.and_then (SupabaseA.hex_run 8 s) (SupabaseA.dash_groups [4; 4; 4; 12]))
    as [[|c r]|]; reflexivity.
Qed.

(** ** The Home page leaderboard and its totals row *)

Lemma perm_list_sum {A : Type} (f : A -> nat) (l l' : list A) :
  Permutation l l' -> list_sum (map f l) = list_sum (map f l').
Proof. induction 1; simpl; lia. Qed.

Lemma list_sum_cons (a : nat) (l : list nat) : list_sum (a :: l) = a + list_sum l.
Proof. reflexivity. Qed.

Lemma sum_by_list_sum (f : Views.language_stats -> nat) (l : list Views.language_stats) :
  HomePage.sum_by f l = list_sum (map f l).
Proof. unfold HomePage.sum_by. rewrite fold_left_sum. reflexivity. Qed.

Definition named_languages (ss : list sentence) : list string :=
  filter (fun l => negb (String.eqb l "")) (nodup string_dec (map s_language ss)).

Lemma named_languages_nodup (ss : list sentence) : NoDup (named_languages ss).
Proof. apply NoDup_filter, NoDup_nodup. Qed.

Lemma in_named_languages (ss : list sentence) (s : sentence) :
  In s ss -> (In s.(s_language) (named_languages ss) <-> s.(s_language) <> "").
Proof.
  intro Hs. unfold named_languages. rewrite filter_In, nodup_In, negb_true_iff, String.eqb_neq.
  split; [tauto|]. intro H. split; [apply in_map, Hs|exact H].
Qed.

Lemma filter_named (P : sentence -> bool) (ss : list sentence) :
  filter (fun s => if in_dec string_dec s.(s_language) (named_languages ss) then P s else false) ss =
  filter (fun s => negb (String.eqb s.(s_language) "") && P s) ss.
Proof.
  apply filter_ext_in. intros s Hs.
  destruct (in_dec string_dec (s_language s) (named_languages ss)) as [i|n];
    destruct (String.eqb (s_language s) "") eqn:E; simpl; try reflexivity.
  - apply String.eqb_eq in E. apply (in_named_languages ss s Hs) in i. contradiction.
  - apply String.eqb_neq in E. exfalso. apply n, (in_named_languages ss s Hs), E.
Qed.

Lemma leaderboard_perm (w1 w2 : db -> db) (d0 : db) :
  Permutation (HomePage.leaderboard w1 w2 d0)
    (map (Views.stats_row d0.(sentences)) (named_languages d0.(sentences))).
Proof.
  unfold HomePage.leaderboard, Dashboard.fetchStats_run. simpl.
  rewrite sort_desc_perm. unfold Views.stats_by_language, named_languages.
  rewrite filter_map_swap. reflexivity.
Qed.

Lemma nodup_app_length {A : Type} (dec : forall x y : A, {x = y} + {x <> y}) (l l' : list A) :
  (forall x, In x l -> ~ In x l') ->
  length (nodup dec (l ++ l')) = length (nodup dec l) + length (nodup dec l').
Proof.
  intro H. rewrite <- length_app. apply Permutation_length, NoDup_Permutation.
  - apply NoDup_nodup.
  - apply NoDup_app; try apply NoDup_nodup. intros a Ha Hb. rewrite nodup_In in Ha, Hb. exact (H a Ha Hb).
  - intro x. rewrite nodup_In, !in_app_iff, !nodup_In. tauto.
Qed.

Lemma nodup_map_inj_length {A B : Type} (decA : forall x y : A, {x = y} + {x <> y})
  (decB : forall x y : B, {x = y} + {x <> y}) (f : A -> B) (l : list A) :
  (forall x y, f x = f y -> x = y) ->
  length (nodup decB (map f l)) = length (nodup decA l).
Proof.
  intro Hinj. rewrite <- (length_map f (nodup decA l)).
  apply Permutation_length, NoDup_Permutation.
  - apply NoDup_nodup.
  - apply NoDup_map_NoDup_ForallPairs; [intros a b _ _; apply Hinj|apply NoDup_nodup].
  - intro y. rewrite nodup_In, !in_map_iff. split.
    + intros (x & <- & Hx). exists x. rewrite nodup_In. auto.
    + intros (x & <- & Hx). rewrite nodup_In in Hx. exists x. auto.
Qed.

Lemma sum_contributors (L : list string) (ss : list sentence) :
  NoDup L ->
  list_sum (map (fun l => length (nodup string_dec (map s_cv_user_id (Views.rows_in_language l ss)))) L) =
  length (nodup pair_string_dec
            (map contribution
               (filter (fun s => if in_dec string_dec s.(s_language) L then true else false) ss))).
Proof.
  induction L as [|l L IH]; intro Hnd.
  - cbn [map list_sum]. induction ss as [|s ss IHs]; [reflexivity|]. cbn [filter].
    destruct (in_dec string_dec (s_language s) []) as [[]|_]. exact IHs.
  - inversion Hnd as [|? ? Hnot Hnd']; subst. cbn [map]. rewrite list_sum_cons, (IH Hnd').
    rewrite (nodup_length_same pair_string_dec
               (map contribution
                  (filter (fun s => if in_dec string_dec s.(s_language) (l :: L) then true else false) ss))
               (map contribution (Views.rows_in_language l ss) ++
                map contribution (filter (fun s => if in_dec string_dec s.(s_language) L then true else false) ss))).
    + rewrite nodup_app_length.
      * enough (E2 : length (nodup string_dec (map s_cv_user_id (Views.rows_in_language l ss))) =
                      length (nodup pair_string_dec (map contribution (Views.rows_in_language l ss)))) by lia.
        assert (E : map contribution (Views.rows_in_language l ss) =
                    map (fun c => (c, l) : string * string) (map s_cv_user_id (Views.rows_in_language l ss))).
        { rewrite map_map. apply map_ext_in. intros s Hs. unfold Views.rows_in_language in Hs.
          apply filter_In in Hs. destruct Hs as [_ Hl]. apply String.eqb_eq in Hl.
          unfold contribution. rewrite Hl. reflexivity. }
        rewrite E. symmetry. apply nodup_map_inj_length. intros x y Exy. congruence.
      * intros x Hx Hy. apply in_map_iff in Hx, Hy.
        destruct Hx as (s & <- & Hs). destruct Hy as (s' & E & Hs').
        unfold Views.rows_in_language in Hs. apply filter_In in Hs. destruct Hs as [_ Hl].
        apply String.eqb_eq in Hl. apply filter_In in Hs'. destruct Hs' as [_ Hi].
        unfold contribution in E. injection E as _ E'.
        destruct (in_dec string_dec (s_language s') L) as [i|n]; [|discriminate].
        apply Hnot. rewrite <- Hl, <- E'. exact i.
    + intro x. rewrite in_app_iff, !in_map_iff. unfold Views.rows_in_language. split.
      * intros (s & <- & Hs). apply filter_In in Hs. destruct Hs as [Hs Hi].
        destruct (in_dec string_dec (s_language s) (l :: L)) as [[E|i]|n]; [| |discriminate].
        -- left. exists s. split; [reflexivity|]. apply filter_In. split; [exact Hs|].
           apply String.eqb_eq. symmetry. exact E.
        -- right. exists s. split; [reflexivity|]. apply filter_In. split; [exact Hs|].
           destruct (in_dec string_dec (s_language s) L); [reflexivity|contradiction].
      * intros [(s & <- & Hs)|(s & <- & Hs)]; exists s; split; try reflexivity;
          apply filter_In in Hs; destruct Hs as [Hs Hc]; apply filter_In; split; try exact Hs.
        -- apply String.eqb_eq in Hc. destruct (in_dec string_dec (s_language s) (l :: L)) as [_|n];
             [reflexivity|]. exfalso. apply n. left. symmetry. exact Hc.
        -- destruct (in_dec string_dec (s_language s) L) as [i|n]; [|discriminate].
           destruct (in_dec string_dec (s_language s) (l :: L)) as [_|n']; [reflexivity|].
           exfalso. apply n'. right. exact i.
Qed.

(** The Home page leaderboard ([fetchStats], lines 16-24 of [Home.tsx]) has
    one row per distinct non-empty language of [sentences] at its first
    query, each the [stats_by_language] row of that language, whatever
    other clients commit during the later queries; the rows are ordered by
    [recordings_uploaded + recordings_pending], largest first, and the
    language count shown is the number of rows. *)
Theorem home_leaderboard_rows (w1 w2 : db -> db) (d0 : db) :
  Permutation (HomePage.leaderboard w1 w2 d0)
    (filter (fun r => negb (String.eqb r.(Views.ls_language) "")) (Views.stats_by_language d0)) /\
  NoDup (map Views.ls_language (HomePage.leaderboard w1 w2 d0)) /\
  (forall l, In l (map Views.ls_language (HomePage.leaderboard w1 w2 d0)) <->
             l <> "" /\ In l (map s_language d0.(sentences))) /\
  Sorted (fun a b => Dashboard.stat_total b <= Dashboard.stat_total a) (HomePage.leaderboard w1 w2 d0) /\
  Dashboard.h_languages (snd (fst (Dashboard.fetchStats_run w1 w2 d0))) =
    length (HomePage.leaderboard w1 w2 d0).
Proof.
  assert (Hl : map Views.ls_language (HomePage.leaderboard w1 w2 d0) =
               map Views.ls_language (HomePage.leaderboard w1 w2 d0)) by reflexivity.
  assert (Hp := leaderboard_perm w1 w2 d0).
  assert (Hlang : Permutation (map Views.ls_language (HomePage.leaderboard w1 w2 d0))
                              (named_languages d0.(sentences))).
  { rewrite (Permutation_map Views.ls_language Hp), map_map. simpl. rewrite map_id. reflexivity. }
  split; [|split; [|split; [|split]]].
  - unfold HomePage.leaderboard, Dashboard.fetchStats_run. simpl. apply sort_desc_perm.
  - apply (Permutation_NoDup (Permutation_sym Hlang)), named_languages_nodup.
  - intro l. split.
    + intro H. apply (Permutation_in _ Hlang) in H. unfold named_languages in H.
      apply filter_In in H. destruct H as [H E]. apply nodup_In in H.
      apply negb_true_iff, String.eqb_neq in E. auto.
    + intros [E H]. apply (Permutation_in _ (Permutation_sym Hlang)). unfold named_languages.
      apply filter_In. split; [apply nodup_In, H|]. apply negb_true_iff, String.eqb_neq, E.
  - unfold HomePage.leaderboard, Dashboard.fetchStats_run. simpl.
    apply (sort_desc_sorted _ Dashboard.stat_total).
  - unfold HomePage.leaderboard, Dashboard.fetchStats_run. simpl.
    symmetry. apply Permutation_length, sort_desc_perm.
Qed.

(** The totals row of the Home page ([Home.tsx] lines 65-67 and 137-146)
    is shown exactly when [sentences] holds at least two distinct non-empty
    languages. Its uploaded and pending totals are the numbers of WorkItems
    with a non-empty language and status ['uploaded'], resp. ['active'];
    its contributor total is the number of distinct (contributor, language)
    pairs, so a contributor active in two languages is counted twice. *)
Theorem home_totals_row (w1 w2 : db -> db) (d0 : db) :
  (HomePage.total_row (HomePage.leaderboard w1 w2 d0) <> None <->
     2 <= length (named_languages d0.(sentences))) /\
  (forall c u p, HomePage.total_row (HomePage.leaderboard w1 w2 d0) = Some (c, u, p) ->
     c = length (nodup pair_string_dec
                   (map contribution (filter (fun s => negb (String.eqb s.(s_language) "")) d0.(sentences)))) /\
     u = length (filter (fun s => negb (String.eqb s.(s_language) "") &&
                                  String.eqb s.(s_status) "uploaded") d0.(sentences)) /\
     p = length (filter (fun s => negb (String.eqb s.(s_language) "") &&
                                  String.eqb s.(s_status) "active") d0.(sentences))).
Proof.
  assert (Hp := leaderboard_perm w1 w2 d0).
  assert (Hlen : length (HomePage.leaderboard w1 w2 d0) = length (named_languages d0.(sentences))).
  { rewrite (Permutation_length Hp). apply length_map. }
  split.
  - unfold HomePage.total_row. rewrite Hlen.
    destruct (1 <? length (named_languages d0.(sentences))) eqn:E.
    + apply Nat.ltb_lt in E. split; [intros _; lia|discriminate].
    + apply Nat.ltb_ge in E. split; [congruence|lia].
  - intros c u p H. unfold HomePage.total_row in H.
    destruct (1 <? length (HomePage.leaderboard w1 w2 d0)); [|discriminate].
    injection H as <- <- <-. rewrite !sum_by_list_sum, !(perm_list_sum _ _ _ Hp), !map_map.
    split; [|split].
    + rewrite (map_ext _ (fun l => length (nodup string_dec
                 (map s_cv_user_id (Views.rows_in_language l d0.(sentences)))))) by reflexivity.
      rewrite sum_contributors by apply named_languages_nodup.
      rewrite (filter_named (fun _ => true)).
      rewrite (filter_ext (fun s => negb (String.eqb (s_language s) "") && true)
                          (fun s => negb (String.eqb (s_language s) ""))) by (intro; apply andb_true_r).
      reflexivity.
    + rewrite (map_ext _ (fun l => length (filter (fun s => String.eqb s.(s_status) "uploaded")
                 (Views.rows_in_language l d0.(sentences))))) by reflexivity.
      rewrite sum_over_languages by apply named_languages_nodup. apply (f_equal (@length _)), filter_named.
    + rewrite (map_ext _ (fun l => length (filter (fun s => String.eqb s.(s_status) "active")
                 (Views.rows_in_language l d0.(sentences))))) by reflexivity.
      rewrite sum_over_languages by apply named_languages_nodup. apply (f_equal (@length _)), filter_named.
Qed.

Lemma home_leaderboard_rows_witness :
  "en" <> "" /\ In "en" (map s_language languages_db.(sentences)) /\
  In "en" (map Views.ls_language (HomePage.leaderboard (fun x => x) (fun x => x) languages_db)).
Proof.
  assert (H1 : "en" <> "") by discriminate.
  assert (H2 : In "en" (map s_language languages_db.(sentences))) by (simpl; auto).
  split; [exact H1|]. split; [exact H2|].
  apply (proj2 (proj1 (proj2 (proj2 (home_leaderboard_rows (fun x => x) (fun x => x) languages_db))) "en")).
  exact (conj H1 H2).
Defined.

Lemma home_totals_row_witness :
  HomePage.total_row (HomePage.leaderboard (fun x => x) (fun x => x) languages_db) = Some (3, 2, 1) /\
  3 = length (nodup pair_string_dec
                (map contribution (filter (fun s => negb (String.eqb s.(s_language) "")) languages_db.(sentences)))) /\
  2 = length (filter (fun s => negb (String.eqb s.(s_language) "") &&
                               String.eqb s.(s_status) "uploaded") languages_db.(sentences)) /\
  1 = length (filter (fun s => negb (String.eqb s.(s_language) "") &&
                               String.eqb s.(s_status) "active") languages_db.(sentences)).
Proof.
  assert (H : HomePage.total_row (HomePage.leaderboard (fun x => x) (fun x => x) languages_db) =
              Some (3, 2, 1)) by (vm_compute; reflexivity).
  split; [exact H|].
  exact (proj2 (home_totals_row (fun x => x) (fun x => x) languages_db) 3 2 1 H).
Defined.

Lemma isUUID_shape_witness :
  SupabaseA.isUUID "123e4567-E89B-12d3-a456-426614174000" = true.
Proof.
  apply (proj2 (isUUID_shape "123e4567-E89B-12d3-a456-426614174000")).
  exists "123e4567", "E89B", "12d3", "a456", "426614174000".
  repeat split; reflexivity.
Defined.

(** ** [handleLookup] and [String.prototype.trim] *)

Lemma forallb_rev {A : Type} (f : A -> bool) (l : list A) : forallb f (rev l) = forallb f l.
Proof.
  induction l as [|x l IH]; simpl; [reflexivity|].
  rewrite forallb_app, IH. simpl. rewrite andb_true_r. apply andb_comm.
Qed.

Lemma hd_rev {A : Type} (d : A) (l : list A) : hd d (rev l) = last l d.
Proof.
  induction l as [|x l _] using rev_ind; [reflexivity|].
  rewrite rev_app_distr, last_last. reflexivity.
Qed.

Lemma trim_start_spaces (pre t : HomePage.js_string) :
  forallb HomePage.is_js_space pre = true -> HomePage.trim_start (pre ++ t) = HomePage.trim_start t.
Proof.
  induction pre as [|u pre IH]; simpl; [reflexivity|].
  intro H. apply andb_true_iff in H. destruct H as [Hu H]. rewrite Hu. apply IH, H.
Qed.

Lemma trim_start_keeps (t : HomePage.js_string) :
  t <> [] -> HomePage.is_js_space (hd 0 t) = false -> HomePage.trim_start t = t.
Proof. destruct t as [|u t]; [congruence|]. simpl. intros _ H. rewrite H. reflexivity. Qed.

Lemma trim_start_spec (s : HomePage.js_string) :
  exists pre, s = pre ++ HomePage.trim_start s /\ forallb HomePage.is_js_space pre = true /\
    (HomePage.trim_start s = [] \/ HomePage.is_js_space (hd 0 (HomePage.trim_start s)) = false).
Proof.
  induction s as [|u s IH]; simpl.
  - exists []. auto.
  - destruct (HomePage.is_js_space u) eqn:Hu.
    + destruct IH as (pre & E & Hp & Hh). exists (u :: pre). simpl. rewrite Hu, Hp, <- E. auto.
    + exists []. simpl. auto.
Qed.

Lemma trim_surrounded (pre t post : HomePage.js_string) :
  forallb HomePage.is_js_space pre = true -> forallb HomePage.is_js_space post = true ->
  t <> [] -> HomePage.is_js_space (hd 0 t) = false -> HomePage.is_js_space (last t 0) = false ->
  HomePage.trim (pre ++ t ++ post) = t.
Proof.
  intros Hpre Hpost Ht Hh Hl. unfold HomePage.trim.
  rewrite trim_start_spaces by exact Hpre.
  rewrite (trim_start_keeps (t ++ post));
    [| destruct t; [congruence|simpl; first [discriminate|exact Hh]] ..].
  rewrite rev_app_distr, trim_start_spaces by (rewrite forallb_rev; exact Hpost).
  rewrite (trim_start_keeps (rev t)); [apply rev_involutive| |rewrite hd_rev; exact Hl].
  intro E. apply Ht. rewrite <- (rev_involutive t), E. reflexivity.
Qed.

Lemma trim_spec (s : HomePage.js_string) :
  exists pre post, s = pre ++ HomePage.trim s ++ post /\
    forallb HomePage.is_js_space pre = true /\ forallb HomePage.is_js_space post = true /\
    (HomePage.trim s = [] \/
     (HomePage.is_js_space (hd 0 (HomePage.trim s)) = false /\
      HomePage.is_js_space (last (HomePage.trim s) 0) = false)).
Proof.
  destruct (trim_start_spec s) as (pre1 & E1 & Hp1 & Hh1).
  destruct (trim_start_spec (rev (HomePage.trim_start s))) as (pre2 & E2 & Hp2 & Hh2).
  assert (Em : HomePage.trim_start s = HomePage.trim s ++ rev pre2).
  { unfold HomePage.trim. rewrite <- rev_app_distr, <- E2. symmetry. apply rev_involutive. }
  exists pre1, (rev pre2). split; [|split; [exact Hp1|split; [rewrite forallb_rev; exact Hp2|]]].
  - rewrite <- Em. exact E1.
  - destruct (HomePage.trim s) as [|u t] eqn:Et; [left; reflexivity|right].
    split.
    + destruct Hh1 as [H0|H0]; rewrite Em in H0; [discriminate|exact H0].
    + rewrite <- Et. unfold HomePage.trim. rewrite <- hd_rev, rev_involutive.
      destruct Hh2 as [H0|H0]; [|exact H0].
      exfalso. unfold HomePage.trim in Et. rewrite H0 in Et. discriminate.
Qed.

Lemma trim_nil_iff (s : HomePage.js_string) :
  HomePage.trim s = [] <-> forallb HomePage.is_js_space s = true.
Proof.
  split.
  - intro H. destruct (trim_spec s) as (pre & post & E & Hp & Hq & _).
    rewrite H in E. simpl in E. rewrite E, forallb_app, Hp, Hq. reflexivity.
  - intro H. unfold HomePage.trim.
    rewrite <- (app_nil_r s), trim_start_spaces by exact H. reflexivity.
Qed.

(** [handleLookup] ([Home.tsx] lines 50-55) navigates nowhere exactly when
    the input is empty or made only of JavaScript white space; otherwise it
    goes to [/stats/] followed by the input with its leading and trailing
    white space removed: for an input [pre ++ t ++ post] with [pre] and
    [post] white space and [t] non-empty, starting and ending with a
    non-space, the target is [/stats/t], and every target has that form. *)
Theorem handleLookup_trimmed_target (s : HomePage.js_string) :
  (HomePage.handleLookup s = None <-> forallb HomePage.is_js_space s = true) /\
  (forall p, HomePage.handleLookup s = Some p ->
     exists pre t post, s = pre ++ t ++ post /\ p = HomePage.stats_prefix ++ t /\
       forallb HomePage.is_js_space pre = true /\ forallb HomePage.is_js_space post = true /\
       t <> [] /\ HomePage.is_js_space (hd 0 t) = false /\ HomePage.is_js_space (last t 0) = false) /\
  (forall pre t post,
     forallb HomePage.is_js_space pre = true -> forallb HomePage.is_js_space post = true ->
     t <> [] -> HomePage.is_js_space (hd 0 t) = false -> HomePage.is_js_space (last t 0) = false ->
     HomePage.handleLookup (pre ++ t ++ post) = Some (HomePage.stats_prefix ++ t)).
Proof.
  split; [|split].
  - rewrite <- trim_nil_iff. unfold HomePage.handleLookup.
    destruct (HomePage.trim s); split; congruence.
  - intros p H. unfold HomePage.handleLookup in H.
    destruct (trim_spec s) as (pre & post & E & Hp & Hq & Hends).
    destruct (HomePage.trim s) as [|u t] eqn:Et; [discriminate|].
    injection H as <-. destruct Hends as [Hn|[Hh Hl]]; [discriminate|].
    exists pre, (u :: t), post. repeat split; try assumption; try reflexivity; discriminate.
  - intros pre t post Hp Hq Ht Hh Hl. unfold HomePage.handleLookup.
    rewrite (trim_surrounded pre t post Hp Hq Ht Hh Hl).
    destruct t; [congruence|reflexivity].
Qed.

Lemma handleLookup_trimmed_target_witness :
  HomePage.handleLookup ([32] ++ [99; 118] ++ [9; 10]) = Some (HomePage.stats_prefix ++ [99; 118]).
Proof.
  apply (proj2 (proj2 (handleLookup_trimmed_target ([32] ++ [99; 118] ++ [9; 10]))));
    try reflexivity; discriminate.
Defined.

(** ** The language context *)

Lemma getInitialLanguage_en_es (e : LanguageContext.env) :
  LanguageContext.getInitialLanguage e = "en" \/ LanguageContext.getInitialLanguage e = "es".
Proof.
  unfold LanguageContext.getInitialLanguage.
  destruct (negb (LanguageContext.has_window e)); [right; reflexivity|].
  destruct (LanguageContext.storage e) as [st|]; [|right; reflexivity].
  destruct (LanguageContext.getItem "dashboard_lang" st) as [stored|].
  - destruct (String.eqb stored "en") eqn:E1; [apply String.eqb_eq in E1; left; exact E1|].
    destruct (String.eqb stored "es") eqn:E2; [apply String.eqb_eq in E2; right; exact E2|].
    simpl. destruct (String.eqb (substring 0 2 (LanguageContext.navigator_language e)) "en"); auto.
  - destruct (String.eqb (substring 0 2 (LanguageContext.navigator_language e)) "en"); auto.
Qed.

(** Every state the dashboard's language context reaches (mount, clicks on
    the EN and ES buttons, reloads, over any browser storage and browser
    language) displays ['en'] or ['es'], so exactly one of the two
    [LanguageSwitcher] buttons has the class ['active']. *)
Theorem language_switcher_one_active (w : LanguageContext.world) :
  LanguageContext.lc_reachable w ->
  (LanguageContext.useLanguage_lang w = "en" /\ LanguageContext.switcher_classes w = ("active", "")) \/
  (LanguageContext.useLanguage_lang w = "es" /\ LanguageContext.switcher_classes w = ("", "active")).
Proof.
  intro Hr.
  assert (Hl : LanguageContext.lang (LanguageContext.prov w) = "en" \/
               LanguageContext.lang (LanguageContext.prov w) = "es").
  { induction Hr as [e|w w' _ IH Hs].
    - right. reflexivity.
    - destruct Hs as [w _|l w Hl|w].
      + apply getInitialLanguage_en_es.
      + unfold LanguageContext.useLanguage_setLang.
        destruct (LanguageContext.mounted (LanguageContext.prov w)); [exact Hl|exact IH].
      + right. reflexivity. }
  unfold LanguageContext.switcher_classes, LanguageContext.useLanguage_lang.
  destruct (LanguageContext.mounted (LanguageContext.prov w)); [|right; split; reflexivity].
  destruct Hl as [-> | ->]; [left|right]; split; reflexivity.
Qed.

Lemma language_switcher_one_active_witness :
  LanguageContext.switcher_classes
    (LanguageContext.useLanguage_setLang "en"
       (LanguageContext.mount (LanguageContext.mkWorld LanguageContext.initial_provider
          (LanguageContext.mkEnv true (Some []) "es-ES")))) = ("active", "").
Proof.
  pose (e := LanguageContext.mkEnv true (Some []) "es-ES").
  assert (R : LanguageContext.lc_reachable
                (LanguageContext.useLanguage_setLang "en"
                   (LanguageContext.mount (LanguageContext.mkWorld LanguageContext.initial_provider e)))).
  { apply (LanguageContext.lc_next _ _ (LanguageContext.lc_next _ _ (LanguageContext.lc_init e)
             (LanguageContext.LcMount (LanguageContext.mkWorld LanguageContext.initial_provider e) eq_refl))).
    apply LanguageContext.LcClick. left. reflexivity. }
  destruct (language_switcher_one_active _ R) as [[_ H]|[H _]]; [exact H|].
  vm_compute in H. discriminate.
Defined.

Lemma getItem_setItem (k v : string) (st : LanguageContext.store) :
  LanguageContext.getItem k (LanguageContext.setItem k v st) = Some v.
Proof. unfold LanguageContext.getItem, LanguageContext.setItem. simpl. rewrite String.eqb_refl. reflexivity. Qed.

(** The language context (part_001, lines 1-61): before the provider has
    mounted, [useLanguage] shows ['es'] and a click changes nothing. After
    mount, a click on EN or ES survives a page reload, whatever the
    browser's language, as long as [localStorage] works; when accessing
    [localStorage] throws, the page always comes back in ['es']. *)
Theorem language_choice_survives_reload (w : LanguageContext.world) (l : string) :
  (LanguageContext.mounted (LanguageContext.prov w) = false ->
     LanguageContext.useLanguage_lang w = "es" /\ LanguageContext.useLanguage_setLang l w = w) /\
  (LanguageContext.mounted (LanguageContext.prov w) = true ->
     LanguageContext.has_window (LanguageContext.env_of w) = true ->
     LanguageContext.storage (LanguageContext.env_of w) <> None ->
     (l = "en" \/ l = "es") ->
     LanguageContext.useLanguage_lang
       (LanguageContext.mount (LanguageContext.reload (LanguageContext.useLanguage_setLang l w))) = l) /\
  (LanguageContext.storage (LanguageContext.env_of w) = None ->
     LanguageContext.useLanguage_lang
       (LanguageContext.mount (LanguageContext.reload (LanguageContext.useLanguage_setLang l w))) = "es").
Proof.
  destruct w as [[lg mt] [win sto nav]]. simpl. split; [|split].
  - intro H. subst mt. split; reflexivity.
  - intros Hm Hw Hs Hl. subst mt win.
    destruct sto as [st|]; [|congruence].
    unfold LanguageContext.useLanguage_lang, LanguageContext.mount, LanguageContext.reload,
      LanguageContext.useLanguage_setLang, LanguageContext.setLang.
    cbn -[LanguageContext.getInitialLanguage]. unfold LanguageContext.getInitialLanguage.
    cbn -[LanguageContext.getItem LanguageContext.setItem]. rewrite getItem_setItem.
    destruct Hl as [->| ->]; reflexivity.
  - intro H. subst sto.
    unfold LanguageContext.useLanguage_lang, LanguageContext.mount, LanguageContext.reload,
      LanguageContext.useLanguage_setLang, LanguageContext.setLang, LanguageContext.getInitialLanguage.
    destruct mt; simpl; destruct win; reflexivity.
Qed.

Lemma language_choice_survives_reload_witness :
  LanguageContext.useLanguage_lang
    (LanguageContext.mount (LanguageContext.reload
       (LanguageContext.useLanguage_setLang "en"
          (LanguageContext.mkWorld (LanguageContext.mkProvider "es" true)
             (LanguageContext.mkEnv true (Some [("dashboard_lang", "es")]) "es-ES"))))) = "en".
Proof.
  apply (proj1 (proj2 (language_choice_survives_reload
    (LanguageContext.mkWorld (LanguageContext.mkProvider "es" true)
       (LanguageContext.mkEnv true (Some [("dashboard_lang", "es")]) "es-ES")) "en")));
    try reflexivity; [discriminate|left; reflexivity].
Defined.

(** ** C6: the status-aggregation reads *)

Lemma page_on_count_matches_list (msg : Dashboard.exn -> string) (d : db) (x : string)
  (r : Anon.row) (l : list Views.user_sentence) :
  UserStatsPage.page_on msg d (Some x) = UserStatsPage.StatsView r l ->
  In ("total_contributions", Anon.VNat (length l)) r.
Proof.
  unfold UserStatsPage.page_on, UserStatsPage.fetchUserData.
  destruct (String.eqb x ""); [discriminate|].
  rewrite supabaseC_getUserStats_on, getUserSentences_on.
  destruct (in_dec string_dec x (map s_cv_user_id d.(sentences))); [|discriminate].
  unfold UserStatsPage.render. cbn [UserStatsPage.loading UserStatsPage.notFound UserStatsPage.error
    UserStatsPage.initial UserStatsPage.stats UserStatsPage.page_sentences].
  intro H. injection H as <- <-.
  rewrite (Permutation_length (sort_desc_perm _ _ _)), length_map. simpl. auto.
Qed.

(** C6 (amended). No status-aggregation read mutates Contributor, WorkItem
    or RecordingAttempt state: [getStatsByLanguage], [getUserSentences],
    every [getUserStats] and [getTotalStats], [fetchStats] and the UserStats
    page only read, so the state afterwards is exactly what other clients'
    commits ([w], [w1], [w2]) made it. A read that is one query is answered
    from one state. A read made of several queries takes each query from
    the state current when it runs: with no commit in between it equals
    the read evaluated on a single state, where the page's
    [total_contributions] is the number of sentences it lists; a
    reconciliation committing in between can give a page whose count
    disagrees with its list. *)
Theorem status_reads_no_mutation_snapshot :
  (forall d x,
     Reads.getStatsByLanguage_run d = (SupabaseA.getStatsByLanguage_on d, d) /\
     Reads.getUserSentences_run x d = (Dashboard.getUserSentences None d x, d) /\
     Reads.getUserStatsC_run x d = (SupabaseC.getUserStats_on d x, d)) /\
  (forall w1 w2 d0, snd (Dashboard.fetchStats_run w1 w2 d0) = w2 (w1 d0)) /\
  (forall w d0 pc pub f v x msg first,
     snd (Reads.getTotalStats_run w d0) = w d0 /\ snd (Reads.getTotalStatsA_run pc w d0) = w d0 /\
     snd (Reads.getUserStatsA_run pub f v w d0) = w d0 /\ snd (Reads.getUserStatsB_run x w d0) = w d0 /\
     snd (Reads.page_run msg x first w d0) = w d0) /\
  (forall w1 w2 d0, w1 d0 = d0 -> w2 d0 = d0 ->
     fst (Dashboard.fetchStats_run w1 w2 d0) = Dashboard.fetchStats_snapshot d0) /\
  (forall w d0 pc pub f v x msg first, w d0 = d0 ->
     fst (Reads.getTotalStats_run w d0) = Dashboard.getTotalStats_on d0 /\
     fst (Reads.getTotalStatsA_run pc w d0) = SupabaseA.getTotalStats_on (pc d0) d0 /\
     fst (Reads.getUserStatsA_run pub f v w d0) = SupabaseA.getUserStats_on (pub d0) f v d0 /\
     fst (Reads.getUserStatsB_run x w d0) = SupabaseB.getUserStats_on d0 x /\
     fst (Reads.page_run msg x first w d0) = UserStatsPage.page_on msg d0 (Some x)) /\
  (forall msg d x r l, UserStatsPage.page_on msg d (Some x) = UserStatsPage.StatsView r l ->
     In ("total_contributions", Anon.VNat (length l)) r) /\
  (forall msg, exists r l,
     fst (Reads.page_run msg "cv-c" true Dashboard.inflight_reconcile Bot.sc_capture2) =
       UserStatsPage.StatsView r l /\
     ~ In ("total_contributions", Anon.VNat (length l)) r).
Proof.
  split; [intros d x; repeat split|].
  split; [reflexivity|].
  split; [intros; repeat split|].
  split.
  { intros w1 w2 d0 H1 H2. unfold Dashboard.fetchStats_snapshot, Dashboard.fetchStats_run. simpl.
    rewrite H1, H2. reflexivity. }
  split.
  { intros w d0 pc pub f v x msg first H.
    unfold Reads.getTotalStats_run, Reads.getTotalStatsA_run, Reads.getUserStatsA_run,
      Reads.getUserStatsB_run, Reads.page_run. rewrite H.
    split; [reflexivity|]. split; [reflexivity|]. split; [reflexivity|]. split; [reflexivity|].
    unfold UserStatsPage.page_on, UserStatsPage.fetchUserData.
    destruct first; [reflexivity|].
    cbn -[UserStatsPage.render SupabaseC.getUserStats_on Dashboard.getUserSentences].
    destruct (String.eqb x ""); [reflexivity|].
    rewrite supabaseC_getUserStats_on, getUserSentences_on. reflexivity. }
  split; [exact page_on_count_matches_list|].
  intro msg. do 2 eexists. split; [vm_compute; reflexivity|].
  vm_compute. intros [H|[H|[H|[]]]]; discriminate.
Qed.

Lemma status_reads_no_mutation_snapshot_witness :
  (fun x : db => x) Bot.sc_capture2 = Bot.sc_capture2 /\
  fst (Reads.page_run error_message "cv-c" true (fun x => x) Bot.sc_capture2) =
    UserStatsPage.page_on error_message Bot.sc_capture2 (Some "cv-c") /\
  fst (Dashboard.fetchStats_run (fun x => x) (fun x => x) Bot.sc_capture2) =
    Dashboard.fetchStats_snapshot Bot.sc_capture2.
Proof.
  destruct status_reads_no_mutation_snapshot as (_ & _ & _ & Hf & Hr & _).
  split; [reflexivity|]. split.
  - apply (Hr (fun x => x) Bot.sc_capture2 (fun _ => 0) (fun _ => []) SupabaseA.by_cv_user_id ""
             "cv-c" error_message true). reflexivity.
  - apply Hf; reflexivity.
Defined.
